(** * Redirect service of url-shortener-demo: model and properties

    The development follows redirect-service/main.go: the two routes that
    [main] registers, [healthHandler], [redirectHandler],
    [publishClickEvent], [getIP], [respondJSON], [getEnv] and [initKafka].
    The libraries the service calls (net/http, gorilla/mux, go-redis,
    kafka-go, encoding/json) appear at the level of the calls the service
    makes and of the values those calls hand back. *)

From Stdlib Require Import ZArith Ascii String DecimalString List Bool Lia.
From stdpp Require Import gmap strings list sorting.

Local Open Scope string_scope.

(** ** Strings *)

Module Strings.

(** strings.Split with a one-byte separator. *)
Fixpoint Split (sep : ascii) (s : string) : list string :=
  match s with
  | EmptyString => [ EmptyString ]
  | String c rest =>
      if Ascii.eqb c sep then EmptyString :: Split sep rest
      else match Split sep rest with
           | piece :: pieces => String c piece :: pieces
           | [] => [ String c EmptyString ]
           end
  end.

(** Does the byte occur in the string? *)
Fixpoint contains (c : ascii) (s : string) : bool :=
  match s with
  | EmptyString => false
  | String d rest => Ascii.eqb d c || contains c rest
  end.

Fixpoint all_bytes (p : ascii -> bool) (s : string) : bool :=
  match s with
  | EmptyString => true
  | String c rest => p c && all_bytes p rest
  end.

Definition nonempty (s : string) : bool :=
  match s with EmptyString => false | String _ _ => true end.

Definition len (s : string) : Z := Z.of_nat (String.length s).

End Strings.

(** ** Errors

    Go's [error] values as the service tells them apart: [redis.Nil]
    against everything else. *)

Inductive error : Type :=
| redis_Nil
| errors_New (msg : string).

Definition Error (e : error) : string :=
  match e with
  | redis_Nil => "redis: nil"
  | errors_New msg => msg
  end.

(** ** net/http *)

Module Http.

Definition StatusOK : Z := 200.
Definition StatusFound : Z := 302.
Definition StatusNotFound : Z := 404.
Definition StatusMethodNotAllowed : Z := 405.
Definition StatusInternalServerError : Z := 500.

(** The header map of a request, keyed by canonical header names. *)
Record Request : Type := {
  Method : string;
  Path : string;
  Header : gmap string (list string);
  RemoteAddr : string
}.

Definition upper (c : ascii) : ascii :=
  let n := nat_of_ascii c in
  if (97 <=? n)%nat && (n <=? 122)%nat then ascii_of_nat (n - 32) else c.

Definition lower (c : ascii) : ascii :=
  let n := nat_of_ascii c in
  if (65 <=? n)%nat && (n <=? 90)%nat then ascii_of_nat (n + 32) else c.

(** textproto.CanonicalMIMEHeaderKey on header names made of token bytes:
    the first letter and every letter after a hyphen in upper case, the
    others in lower case. *)
Fixpoint canonical (up : bool) (key : string) : string :=
  match key with
  | EmptyString => EmptyString
  | String c rest =>
      String (if up then upper c else lower c)
             (canonical (Ascii.eqb c "-"%char) rest)
  end.

Definition CanonicalMIMEHeaderKey (key : string) : string := canonical true key.

(** Header.Get: the first value stored under the canonical key, or the
    empty string. *)
Definition Header_Get (h : gmap string (list string)) (key : string) : string :=
  match h !! CanonicalMIMEHeaderKey key with
  | Some (v :: _) => v
  | _ => ""
  end.

Definition UserAgent (r : Request) : string := Header_Get (Header r) "User-Agent".

(** JSON documents, as far as the service builds them: flat objects whose
    members are strings and time.Time values (a leaf of its own here). *)
Inductive JSONValue : Type :=
| JString (s : string)
| JTime (unixNano : Z).

Definition JSON : Type := list (string * JSONValue).

Inductive Body : Type :=
| NoBody
| TextBody (text : string)        (* the text, printed as one line *)
| LinkBody (url : string)        (* the short HTML page that links to url *)
| JSONBody (doc : JSON).         (* what the JSON encoder was given *)

(** What a handler has written into its ResponseWriter. *)
Record Response : Type := {
  StatusCode : Z;
  RespHeader : gmap string string;
  RespBody : Body
}.

Definition NewResponseWriter : Response :=
  {| StatusCode := StatusOK; RespHeader := ∅; RespBody := NoBody |}.

Definition Header_Set (key value : string) (w : Response) : Response :=
  {| StatusCode := StatusCode w;
     RespHeader := <[ key := value ]> (RespHeader w);
     RespBody := RespBody w |}.

Definition WriteHeader (code : Z) (w : Response) : Response :=
  {| StatusCode := code; RespHeader := RespHeader w; RespBody := RespBody w |}.

Definition Write (b : Body) (w : Response) : Response :=
  {| StatusCode := StatusCode w; RespHeader := RespHeader w; RespBody := b |}.

Definition Location (w : Response) : option string := RespHeader w !! "Location".

(** http.Error: plain-text reply with the given status code. *)
Definition Error (w : Response) (msg : string) (code : Z) : Response :=
  Write (TextBody msg)
    (WriteHeader code
       (Header_Set "X-Content-Type-Options" "nosniff"
          (Header_Set "Content-Type" "text/plain; charset=utf-8" w))).

(** http.Redirect: reply with the given status code and the url as
    Location. The url is recorded as the handler passes it: net/http sends
    an absolute ASCII url as it is, resolves a url that has neither scheme
    nor host against the request path, and percent-escapes bytes above
    0x7f; that rewriting stays inside the library. *)
Definition Redirect (w : Response) (r : Request) (url : string) (code : Z) : Response :=
  let hadCT := bool_decide (is_Some (RespHeader w !! "Content-Type")) in
  let get_or_head := bool_decide (Method r = "GET") || bool_decide (Method r = "HEAD") in
  let w1 := Header_Set "Location" url w in
  let w2 := if negb hadCT && get_or_head
            then Header_Set "Content-Type" "text/html; charset=utf-8" w1 else w1 in
  let w3 := WriteHeader code w2 in
  if negb hadCT && bool_decide (Method r = "GET") then Write (LinkBody url) w3 else w3.

End Http.

(** ** go-redis *)

Module Redis.

(** How the store answers one command of the client. *)
Inductive Reply : Type :=
| Answers
| Fails (reason : string).

(** The mapping store seen through the client: its keys, and how it will
    answer the commands to come, one entry per command (it answers once
    the list is used up). *)
Record Client : Type := {
  db : gmap string string;
  replies : list Reply
}.

Definition next_reply (c : Client) : Reply :=
  match replies c with
  | [] => Answers
  | reply :: _ => reply
  end.

Definition served (c : Client) : Client :=
  {| db := db c; replies := tail (replies c) |}.

(** redisClient.Get(ctx, key).Result() *)
Definition Get (c : Client) (key : string) : string * option error * Client :=
  match next_reply c with
  | Fails reason => ("", Some (errors_New reason), served c)
  | Answers =>
      match db c !! key with
      | Some value => (value, None, served c)
      | None => ("", Some redis_Nil, served c)
      end
  end.

(** redisClient.Ping(ctx).Result() *)
Definition Ping (c : Client) : string * option error * Client :=
  match next_reply c with
  | Fails reason => ("", Some (errors_New reason), served c)
  | Answers => ("PONG", None, served c)
  end.

End Redis.

(** ** kafka-go *)

Module Kafka.

Record Message : Type := {
  Key : string;
  Value : string
}.

Definition RequireOne : Z := 1.

(** The LeastBytes balancer: the bytes routed to each partition so far,
    entry [i] for partition [i]. *)
Definition LeastBytes : Type := list Z.

(** The scan of LeastBytes.Balance for the first smallest counter. *)
Fixpoint least (minIndex : nat) (minBytes : Z) (i : nat) (counters : list Z) : nat :=
  match counters with
  | [] => minIndex
  | c :: rest =>
      if (c <? minBytes)%Z then least i c (S i) rest
      else least minIndex minBytes (S i) rest
  end.

Definition makeCounters (numPartitions : nat) : LeastBytes := repeat 0%Z numPartitions.

(** LeastBytes.Balance over the partitions [0 .. numPartitions-1]: the
    counters are reset when the number of partitions changed, the message
    goes to the first partition with the fewest bytes, and its counter
    grows by the length of key and value. *)
Definition Balance (lb : LeastBytes) (msg : Message) (numPartitions : nat)
  : nat * LeastBytes :=
  let counters :=
    if (length lb =? numPartitions)%nat then lb else makeCounters numPartitions in
  match counters with
  | [] => (0%nat, counters)
  | c0 :: rest =>
      let minIndex := least 0 c0 1 rest in
      (minIndex,
       alter (fun bytes => (bytes + Strings.len (Key msg) + Strings.len (Value msg))%Z)
             minIndex counters)
  end.

Record Writer : Type := {
  Addr : list string;
  Topic : string;
  Balancer : LeastBytes;
  BatchSize : Z;
  RequiredAcks : Z;
  Async : bool
}.

Definition balanced (w : Writer) (lb : LeastBytes) : Writer :=
  {| Addr := Addr w; Topic := Topic w; Balancer := lb;
     BatchSize := BatchSize w; RequiredAcks := RequiredAcks w; Async := Async w |}.

(** How the Event Log meets one WriteMessages call. *)
Inductive Reply : Type :=
| Accepts                        (* the message is written *)
| Unreachable (reason : string)  (* no broker answers the metadata request *)
| Rejects (reason : string)      (* the produce request is turned down *)
| Stalls.                        (* the log never answers *)

(** The topic of the writer: its partitions, oldest message first, and how
    the log will meet the calls to come (it accepts once the list is used
    up). *)
Record Broker : Type := {
  partitions : list (list Message);
  replies : list Reply
}.

Definition next_reply (b : Broker) : Reply :=
  match replies b with
  | [] => Accepts
  | reply :: _ => reply
  end.

Definition served (b : Broker) : Broker :=
  {| partitions := partitions b; replies := tail (replies b) |}.

Definition append (p : nat) (msg : Message) (b : Broker) : Broker :=
  {| partitions := alter (fun log => (log ++ [msg])%list) p (partitions b);
     replies := replies b |}.

(** Writer.WriteMessages with one message. [None]: the call never returns.
    The writer asks for the partitions of the topic, lets the balancer pick
    one, and hands the message over. A writer with [Async] set returns
    once the message is handed over: what becomes of the write is not
    reported to the caller. *)
Definition WriteMessages (w : Writer) (b : Broker) (msg : Message)
  : option (option error * Writer * Broker) :=
  match next_reply b with
  | Stalls => None
  | Unreachable reason => Some (Some (errors_New reason), w, served b)
  | reply =>
      match partitions b with
      | [] => Some (Some (errors_New "Unknown Topic Or Partition"), w, served b)
      | _ :: _ =>
          let '(p, lb) := Balance (Balancer w) msg (length (partitions b)) in
          match reply with
          | Rejects reason =>
              Some (if Async w then None else Some (errors_New reason),
                    balanced w lb, served b)
          | _ => Some (None, balanced w lb, append p msg (served b))
          end
      end
  end.

End Kafka.

(** ** gorilla/mux *)

Module Mux.

Inductive Segment : Type :=
| Lit (text : string)
| Var (name : string).

Fixpoint closing (s : string) : option string :=
  match s with
  | EmptyString => None
  | String c EmptyString => if Ascii.eqb c "}"%char then Some EmptyString else None
  | String c rest => option_map (String c) (closing rest)
  end.

(** A path segment of a route template: [{name}] is a variable, anything
    else stands for itself. *)
Definition segment (s : string) : Segment :=
  match s with
  | String c rest =>
      if Ascii.eqb c "{"%char
      then match closing rest with Some name => Var name | None => Lit s end
      else Lit s
  | EmptyString => Lit s
  end.

Definition segments (template : string) : list Segment :=
  map segment (tail (Strings.Split "/"%char template)).

Definition Vars : Type := list (string * string).

(** vars[name], the empty string when the name is not bound. *)
Fixpoint Vars_get (vars : Vars) (name : string) : string :=
  match vars with
  | [] => ""
  | (n, v) :: rest => if bool_decide (n = name) then v else Vars_get rest name
  end.

(** A variable matches one non-empty path segment. *)
Fixpoint match_segments (tpl : list Segment) (path : list string) : option Vars :=
  match tpl, path with
  | [], [] => Some []
  | Lit text :: tpl', p :: path' =>
      if bool_decide (text = p) then match_segments tpl' path' else None
  | Var name :: tpl', p :: path' =>
      if Strings.nonempty p
      then option_map (cons (name, p)) (match_segments tpl' path')
      else None
  | _, _ => None
  end.

Definition match_path (template path : string) : option Vars :=
  match Strings.Split "/"%char path with
  | EmptyString :: rest => match_segments (segments template) rest
  | _ => None
  end.

Record Route (H : Type) : Type := {
  template : string;
  methods : list string;
  handler : H
}.
Arguments template {H}.
Arguments methods {H}.
Arguments handler {H}.

Inductive RouteMatch (H : Type) : Type :=
| Matched (h : H) (vars : Vars)
| ErrMethodMismatch
| ErrNotFound.
Arguments Matched {H}.
Arguments ErrMethodMismatch {H}.
Arguments ErrNotFound {H}.

(** Router.Match: the routes are tried in the order they were registered
    and the first one whose template and method both match wins. The path
    is matched as the router receives it, mux having cleaned it. *)
Fixpoint Match {H : Type} (routes : list (Route H)) (r : Http.Request)
    (mismatch : bool) : RouteMatch H :=
  match routes with
  | [] => if mismatch then ErrMethodMismatch else ErrNotFound
  | route :: rest =>
      match match_path (template route) (Http.Path r) with
      | Some vars =>
          if existsb (fun m => bool_decide (m = Http.Method r)) (methods route)
          then Matched (handler route) vars
          else Match rest r true
      | None => Match rest r mismatch
      end
  end.

End Mux.

(** ** shortener-service: the alphabet of the short codes *)

Module Shortener.

Definition charset : string :=
  "abcdefghijklmnopqrstuvwxyzABCDEFGHIJKLMNOPQRSTUVWXYZ0123456789".

Definition codeLength : nat := 6.

(** charset[i] *)
Fixpoint byte_at (s : string) (i : nat) : option ascii :=
  match s, i with
  | EmptyString, _ => None
  | String c _, O => Some c
  | String _ rest, S j => byte_at rest j
  end.

(** generateShortCode, given the numbers rand.Int draws below
    len(charset); [None] when the random source gives out. *)
Fixpoint generate (n : nat) (draws : list nat) : option string :=
  match n with
  | O => Some EmptyString
  | S m =>
      match draws with
      | [] => None
      | num :: rest =>
          match byte_at charset num, generate m rest with
          | Some c, Some code => Some (String c code)
          | _, _ => None
          end
      end
  end.

Definition generateShortCode (draws : list nat) : option string :=
  generate codeLength draws.

Definition in_charset (c : ascii) : bool := Strings.contains c charset.

(** A non-empty string over the alphabet of the shortener. *)
Definition is_code (s : string) : bool :=
  Strings.nonempty s && Strings.all_bytes in_charset s.

End Shortener.

(** ** redirect-service *)

Module HealthResponse.
Record t : Type := {
  Status : string;
  Service : string;
  Timestamp : Z
}.

(** The document encoding/json builds from the struct tags. *)
Definition json (v : t) : Http.JSON :=
  [ ("status", Http.JString (Status v));
    ("service", Http.JString (Service v));
    ("timestamp", Http.JTime (Timestamp v)) ].
End HealthResponse.

Module ClickEvent.
Record t : Type := {
  ShortCode : string;
  Timestamp : Z;
  UserAgent : string;
  IP : string
}.
End ClickEvent.

Module RedirectService.

(** A goroutine that was started and has not finished. *)
Inductive Goroutine : Type :=
| go_publishClickEvent (shortCode : string) (r : Http.Request).

(** The process and what it talks to: the two package-level connection
    handles with the store and the log behind them, the clock, the lines
    written through the log package, and the goroutines in flight. *)
Record World : Type := {
  redisClient : Redis.Client;
  kafkaWriter : Kafka.Writer;
  eventLog : Kafka.Broker;
  now : Z;
  logged : list string;
  goroutines : list Goroutine
}.

Definition with_redis (c : Redis.Client) (st : World) : World :=
  {| redisClient := c; kafkaWriter := kafkaWriter st; eventLog := eventLog st;
     now := now st; logged := logged st; goroutines := goroutines st |}.

Definition with_kafka (w : Kafka.Writer) (b : Kafka.Broker) (st : World) : World :=
  {| redisClient := redisClient st; kafkaWriter := w; eventLog := b;
     now := now st; logged := logged st; goroutines := goroutines st |}.

Definition with_now (t : Z) (st : World) : World :=
  {| redisClient := redisClient st; kafkaWriter := kafkaWriter st;
     eventLog := eventLog st; now := t; logged := logged st;
     goroutines := goroutines st |}.

Definition with_goroutines (gs : list Goroutine) (st : World) : World :=
  {| redisClient := redisClient st; kafkaWriter := kafkaWriter st;
     eventLog := eventLog st; now := now st; logged := logged st;
     goroutines := gs |}.

(** log.Printf: one more line. *)
Definition log_Printf (line : string) (st : World) : World :=
  {| redisClient := redisClient st; kafkaWriter := kafkaWriter st;
     eventLog := eventLog st; now := now st;
     logged := (logged st ++ [line])%list; goroutines := goroutines st |}.

(** The go statement: the call is left to run on its own and the caller
    goes on at once. *)
Definition go (g : Goroutine) (st : World) : World :=
  with_goroutines (goroutines st ++ [g])%list st.

(** getEnv over the environment of the process. *)
Definition getEnv (env : gmap string string) (key defaultValue : string) : string :=
  match env !! key with
  | Some value => if Strings.nonempty value then value else defaultValue
  | None => defaultValue
  end.

Definition initKafka (env : gmap string string) : Kafka.Writer :=
  let brokers := Strings.Split ","%char (getEnv env "KAFKA_BROKERS" "localhost:9092") in
  let topic := getEnv env "KAFKA_TOPIC" "url-clicks" in
  {| Kafka.Addr := brokers;
     Kafka.Topic := topic;
     Kafka.Balancer := [];
     Kafka.BatchSize := 1;
     Kafka.RequiredAcks := Kafka.RequireOne;
     Kafka.Async := true |}.

Definition respondJSON (w : Http.Response) (status : Z) (data : Http.JSON)
  : Http.Response :=
  Http.Write (Http.JSONBody data)
    (Http.WriteHeader status
       (Http.Header_Set "Content-Type" "application/json" w)).

Definition HandlerFunc : Type :=
  Http.Response -> Mux.Vars -> Http.Request -> World -> Http.Response * World.

(** The struct that healthHandler sends. *)
Definition health (st : World) : HealthResponse.t * World :=
  let '(_, err, rc) := Redis.Ping (redisClient st) in
  let status := match err with Some _ => "unhealthy" | None => "healthy" end in
  ({| HealthResponse.Status := status;
      HealthResponse.Service := "redirect-service";
      HealthResponse.Timestamp := now st |},
   with_redis rc st).

Definition healthHandler : HandlerFunc := fun w _ _ st =>
  let '(response, st1) := health st in
  (respondJSON w Http.StatusOK (HealthResponse.json response), st1).

(** The lookup of redirectHandler: the spec's [resolve]. *)
Definition resolve (shortCode : string) (c : Redis.Client)
  : string * option error * Redis.Client :=
  Redis.Get c ("url:" ++ shortCode).

Definition redirectHandler : HandlerFunc := fun w vars r st =>
  let shortCode := Mux.Vars_get vars "shortCode" in
  let '(originalURL, err, rc) := resolve shortCode (redisClient st) in
  let st1 := with_redis rc st in
  match err with
  | Some redis_Nil =>
      (Http.Error w "Short URL not found" Http.StatusNotFound,
       log_Printf ("[Redirect Service] Short code '" ++ shortCode ++ "' not found") st1)
  | Some e =>
      (Http.Error w "Internal server error" Http.StatusInternalServerError,
       log_Printf ("[Redirect Service] Redis error: " ++ Error e) st1)
  | None =>
      let st2 := go (go_publishClickEvent shortCode r) st1 in
      let st3 := log_Printf ("[Redirect Service] Redirecting '" ++ shortCode
                             ++ "' to " ++ originalURL) st2 in
      (Http.Redirect w r originalURL Http.StatusFound, st3)
  end.

Definition getIP (r : Http.Request) : string :=
  let forwarded := Http.Header_Get (Http.Header r) "X-Forwarded-For" in
  if Strings.nonempty forwarded then forwarded
  else
    let realIP := Http.Header_Get (Http.Header r) "X-Real-IP" in
    if Strings.nonempty realIP then realIP
    else Http.RemoteAddr r.

(** The struct that publishClickEvent fills in. *)
Definition clickEvent (shortCode : string) (r : Http.Request) (t : Z) : ClickEvent.t :=
  {| ClickEvent.ShortCode := shortCode;
     ClickEvent.Timestamp := t;
     ClickEvent.UserAgent := Http.UserAgent r;
     ClickEvent.IP := getIP r |}.

(** The routes of [main], in the order they are registered. *)
Definition router : list (Mux.Route HandlerFunc) :=
  [ {| Mux.template := "/health"; Mux.methods := ["GET"]; Mux.handler := healthHandler |};
    {| Mux.template := "/{shortCode}"; Mux.methods := ["GET"];
       Mux.handler := redirectHandler |} ].

(** Router.ServeHTTP: the matched handler, or mux's own 405 and 404
    replies. The cors wrapper of [main] passes every request but a
    preflight on to the router and adds headers only. *)
Definition ServeHTTP (r : Http.Request) (st : World) : Http.Response * World :=
  match Mux.Match router r false with
  | Mux.Matched h vars => h Http.NewResponseWriter vars r st
  | Mux.ErrMethodMismatch =>
      (Http.WriteHeader Http.StatusMethodNotAllowed Http.NewResponseWriter, st)
  | Mux.ErrNotFound =>
      (Http.Error Http.NewResponseWriter "404 page not found" Http.StatusNotFound, st)
  end.

(** A GET request for the path [/C]. *)
Definition GET (C : string) (h : gmap string (list string)) (peer : string)
  : Http.Request :=
  {| Http.Method := "GET"; Http.Path := "/" ++ C; Http.Header := h;
     Http.RemoteAddr := peer |}.

Section Publisher.

(** json.Marshal at the type ClickEvent: the bytes and the error of the
    call. The publisher is followed for every way the call can end. *)
Variable json_Marshal : ClickEvent.t -> string * option error.

(** [None]: the call never returns. *)
Definition publishClickEvent (shortCode : string) (r : Http.Request) (st : World)
  : option World :=
  let event := clickEvent shortCode r (now st) in
  let '(jsonData, err) := json_Marshal event in
  match err with
  | Some e =>
      Some (log_Printf ("[Redirect Service] Failed to marshal click event: "
                        ++ Error e) st)
  | None =>
      match Kafka.WriteMessages (kafkaWriter st) (eventLog st)
              {| Kafka.Key := shortCode; Kafka.Value := jsonData |} with
      | None => None
      | Some (err', w, b) =>
          let st1 := with_kafka w b st in
          match err' with
          | Some e =>
              Some (log_Printf ("[Redirect Service] Failed to publish to Kafka: "
                                ++ Error e) st1)
          | None =>
              Some (log_Printf ("[Redirect Service] Published click event for '"
                                ++ shortCode ++ "' to Kafka") st1)
          end
      end
  end.

Definition run (g : Goroutine) (st : World) : option World :=
  match g with
  | go_publishClickEvent shortCode r => publishClickEvent shortCode r st
  end.

(** What the process can do next: serve a request, let one of the started
    goroutines run to its end, or see the clock move. *)
Inductive step : World -> World -> Prop :=
| step_request (r : Http.Request) (st : World) :
    step st (snd (ServeHTTP r st))
| step_goroutine (i : nat) (g : Goroutine) (st st' : World) :
    goroutines st !! i = Some g ->
    run g (with_goroutines (delete i (goroutines st)) st) = Some st' ->
    step st st'
| step_clock (t : Z) (st : World) :
    step st (with_now t st).

Inductive steps : World -> World -> Prop :=
| steps_refl (st : World) : steps st st
| steps_step (st1 st2 st3 : World) : step st1 st2 -> steps st2 st3 -> steps st1 st3.

End Publisher.

End RedirectService.

(** ** The address precedence in the words of the specification *)

(** The first non-empty candidate in the given order, the fallback when
    there is none. *)
Fixpoint first_non_empty (candidates : list string) (fallback : string) : string :=
  match candidates with
  | [] => fallback
  | c :: rest => if Strings.nonempty c then c else first_non_empty rest fallback
  end.

(** ** Worked settings *)

Module Sample.

Definition quote : string := String "034"%char EmptyString.

Definition member (name value : string) : string :=
  quote ++ name ++ quote ++ ":" ++ quote ++ value ++ quote.

(** A stand-in for json.Marshal in the worked settings: the four members
    in the order of the struct, strings as they are, the time as its
    nanoseconds. *)
Definition Marshal (e : ClickEvent.t) : string * option error :=
  ("{" ++ member "shortCode" (ClickEvent.ShortCode e)
       ++ "," ++ member "timestamp"
                   (DecimalString.NilZero.string_of_int (Z.to_int (ClickEvent.Timestamp e)))
       ++ "," ++ member "userAgent" (ClickEvent.UserAgent e)
       ++ "," ++ member "ip" (ClickEvent.IP e) ++ "}",
   None).

(** A marshaller that fails. *)
Definition Marshal_fails (e : ClickEvent.t) : string * option error :=
  ("", Some (errors_New "json: error calling MarshalJSON for type time.Time")).

Definition store (db : gmap string string) (replies : list Redis.Reply)
  : Redis.Client :=
  {| Redis.db := db; Redis.replies := replies |}.

Definition topic (numPartitions : nat) (replies : list Kafka.Reply) : Kafka.Broker :=
  {| Kafka.partitions := repeat [] numPartitions; Kafka.replies := replies |}.

(** The process right after [main] has set it up with an empty
    environment. *)
Definition world (c : Redis.Client) (b : Kafka.Broker) : RedirectService.World :=
  {| RedirectService.redisClient := c;
     RedirectService.kafkaWriter := RedirectService.initKafka ∅;
     RedirectService.eventLog := b;
     RedirectService.now := 1700000000000000000;
     RedirectService.logged := [];
     RedirectService.goroutines := [] |}.

Definition browser : gmap string (list string) :=
  {[ "User-Agent" := [ "curl/8.4.0" ] ]}.

Definition peer : string := "172.18.0.1:51234".

(** The mapping of the end-to-end scenario. *)
Definition abc123 : gmap string string := {[ "url:abc123" := "https://example.com" ]}.

(** One click: the request is served, and the publisher it started,
    if any, runs to its end. *)
Definition click (C : string) (st : RedirectService.World)
  : option RedirectService.World :=
  let st1 := snd (RedirectService.ServeHTTP (RedirectService.GET C browser peer) st) in
  match RedirectService.goroutines st1 with
  | g :: rest =>
      RedirectService.run Marshal g (RedirectService.with_goroutines rest st1)
  | [] => Some st1
  end.

(** One click after the other. *)
Fixpoint clicks (codes : list string) (st : RedirectService.World)
  : option RedirectService.World :=
  match codes with
  | [] => Some st
  | C :: rest =>
      match click C st with
      | Some st1 => clicks rest st1
      | None => None
      end
  end.

Definition keys (st : RedirectService.World) : list (list string) :=
  map (map Kafka.Key) (Kafka.partitions (RedirectService.eventLog st)).


End Sample.

(** ** redirect-service: start-up and what the process keeps *)

Module Startup.

Import RedirectService.

Definition port (env : gmap string string) : string := getEnv env "PORT" "3002".

(** The address that initRedis hands to redis.NewClient. *)
Definition redisAddr (env : gmap string string) : string :=
  getEnv env "REDIS_HOST" "localhost" ++ ":" ++ getEnv env "REDIS_PORT" "6379".

(** initRedis, for the store found at the address: the client once the
    ping has come back, or the line of log.Fatalf, with which the process
    ends. *)
Definition initRedis (env : gmap string string) (store : Redis.Client)
  : string + Redis.Client :=
  let '(_, err, c) := Redis.Ping store in
  match err with
  | Some e => inl ("Failed to connect to Redis: " ++ Error e)
  | None => inr c
  end.

Inductive Started : Type :=
| Fatal (line : string)
| Serving (st : World).

(** [main] up to the call of ListenAndServe. *)
Definition main (env : gmap string string) (store : Redis.Client)
    (log : Kafka.Broker) (t : Z) : Started :=
  match initRedis env store with
  | inl line => Fatal line
  | inr c =>
      Serving
        {| redisClient := c;
           kafkaWriter := initKafka env;
           eventLog := log;
           now := t;
           logged :=
             [ "[Redirect Service] Kafka writer initialized";
               "[Redirect Service] Server starting on port " ++ port env;
               "[Redirect Service] Connected to Redis at "
                 ++ getEnv env "REDIS_HOST" "localhost" ++ ":"
                 ++ getEnv env "REDIS_PORT" "6379";
               "[Redirect Service] Connected to Kafka at "
                 ++ getEnv env "KAFKA_BROKERS" "localhost:9092" ++ ", topic: "
                 ++ getEnv env "KAFKA_TOPIC" "url-clicks" ];
           goroutines := [] |}
  end.

End Startup.


(** The store holds a destination for the short code. *)
Definition stored (db : gmap string string) (shortCode : string) : Prop :=
  is_Some (db !! ("url:" ++ shortCode)).

Definition code_of (g : RedirectService.Goroutine) : string :=
  match g with
  | RedirectService.go_publishClickEvent shortCode _ => shortCode
  end.

(** Every event in the log, and every publication in flight, is for a
    short code that the store holds. *)
Definition clicks_on_stored_codes (st : RedirectService.World) : Prop :=
  Forall (Forall (fun msg =>
                    stored (Redis.db (RedirectService.redisClient st)) (Kafka.Key msg)))
         (Kafka.partitions (RedirectService.eventLog st)) /\
  Forall (fun g => stored (Redis.db (RedirectService.redisClient st)) (code_of g))
         (RedirectService.goroutines st).

(** The number of messages in the log. *)
Definition messages (b : Kafka.Broker) : nat :=
  length (concat (Kafka.partitions b)).


(** ** shortener-service: the handler that creates the mappings *)

Module ShortenerService.

Definition StatusCreated : Z := 201.
Definition StatusBadRequest : Z := 400.

Record ShortenRequest : Type := {
  URL : string
}.

Record ShortenResponse : Type := {
  ShortCode : string;
  ShortURL : string;
  Original : string
}.

(** The document encoding/json builds from the struct tags. *)
Definition json (v : ShortenResponse) : Http.JSON :=
  [ ("shortCode", Http.JString (ShortCode v));
    ("shortUrl", Http.JString (ShortURL v));
    ("originalUrl", Http.JString (Original v)) ].

(** The process of the shortener: its client of the mapping store, the
    numbers that rand.Int will draw and the error of the random source
    once they are used up, and the lines written through the log
    package. *)
Record World : Type := {
  redisClient : Redis.Client;
  rand : list nat;
  randErr : error;
  logged : list string
}.

Definition with_redis (c : Redis.Client) (st : World) : World :=
  {| redisClient := c; rand := rand st; randErr := randErr st; logged := logged st |}.

Definition with_rand (draws : list nat) (st : World) : World :=
  {| redisClient := redisClient st; rand := draws; randErr := randErr st;
     logged := logged st |}.

Definition log_Printf (line : string) (st : World) : World :=
  {| redisClient := redisClient st; rand := rand st; randErr := randErr st;
     logged := (logged st ++ [ line ])%list |}.

(** redisClient.Exists(ctx, key).Result() *)
Definition Exists (c : Redis.Client) (key : string) : Z * option error * Redis.Client :=
  match Redis.next_reply c with
  | Redis.Fails reason => (0%Z, Some (errors_New reason), Redis.served c)
  | Redis.Answers =>
      (match Redis.db c !! key with Some _ => 1%Z | None => 0%Z end,
       None, Redis.served c)
  end.

(** redisClient.Set(ctx, key, value, 0).Err(): no expiry. *)
Definition Set_ (c : Redis.Client) (key value : string) : option error * Redis.Client :=
  match Redis.next_reply c with
  | Redis.Fails reason => (Some (errors_New reason), Redis.served c)
  | Redis.Answers =>
      (None,
       {| Redis.db := <[ key := value ]> (Redis.db c);
          Redis.replies := tail (Redis.replies c) |})
  end.

(** generateShortCode drawing from the random source of the process: the
    code, or the empty string with the error, and the numbers left. *)
Definition generateShortCode (st : World) : string * option error * World :=
  match Shortener.generateShortCode (rand st) with
  | Some code => (code, None, with_rand (drop Shortener.codeLength (rand st)) st)
  | None => ("", Some (randErr st), with_rand (drop Shortener.codeLength (rand st)) st)
  end.

Definition respondJSON (w : Http.Response) (status : Z) (data : Http.JSON)
  : Http.Response :=
  Http.Write (Http.JSONBody data)
    (Http.WriteHeader status
       (Http.Header_Set "Content-Type" "application/json" w)).

Definition respondError (w : Http.Response) (status : Z) (message : string)
  : Http.Response :=
  respondJSON w status [ ("error", Http.JString message) ].

(** How the loop that looks for a free code ends. *)
Inductive Candidate : Type :=
| Free (shortCode : string) (st : World)
| DatabaseError (e : error) (st : World).

(** The loop of shortenHandler over the candidates; [None]: it has not
    ended within the given number of rounds. The error of a new draw is
    dropped, as in the source. *)
Fixpoint unique (rounds : nat) (shortCode : string) (st : World) : option Candidate :=
  match rounds with
  | O => None
  | S rounds' =>
      let '(exists_, err, c) := Exists (redisClient st) ("url:" ++ shortCode) in
      let st1 := with_redis c st in
      match err with
      | Some e => Some (DatabaseError e st1)
      | None =>
          if (exists_ =? 0)%Z then Some (Free shortCode st1)
          else
            let '(shortCode', _, st2) := generateShortCode st1 in
            unique rounds' shortCode' st2
      end
  end.

Section Handler.

(** json.NewDecoder(r.Body).Decode(&req): the request read from the body,
    [None] for a body that does not decode. *)
Variable json_Decode : string -> option ShortenRequest.

(** shortenHandler on the body of the request; [None]: the search for a
    free code has not ended within the given number of rounds. *)
Definition shortenHandler (rounds : nat) (w : Http.Response) (body : string)
    (st : World) : option (Http.Response * World) :=
  match json_Decode body with
  | None => Some (respondError w StatusBadRequest "Invalid request body", st)
  | Some req =>
      if negb (Strings.nonempty (URL req))
      then Some (respondError w StatusBadRequest "URL is required", st)
      else
        let '(shortCode, err, st1) := generateShortCode st in
        match err with
        | Some e =>
            Some (respondError w Http.StatusInternalServerError
                    "Failed to generate short code",
                  log_Printf ("[Shortener Service] Error generating short code: "
                              ++ Error e) st1)
        | None =>
            match unique rounds shortCode st1 with
            | None => None
            | Some (DatabaseError e st2) =>
                Some (respondError w Http.StatusInternalServerError "Database error",
                      log_Printf ("[Shortener Service] Redis error: " ++ Error e) st2)
            | Some (Free shortCode' st2) =>
                let '(err', c) := Set_ (redisClient st2) ("url:" ++ shortCode') (URL req) in
                let st3 := with_redis c st2 in
                match err' with
                | Some e =>
                    Some (respondError w Http.StatusInternalServerError
                            "Failed to save URL",
                          log_Printf ("[Shortener Service] Failed to save to Redis: "
                                      ++ Error e) st3)
                | None =>
                    Some (respondJSON w StatusCreated
                            (json {| ShortCode := shortCode';
                                     ShortURL := "http://localhost:3002/" ++ shortCode';
                                     Original := URL req |}),
                          log_Printf ("[Shortener Service] Created short code '"
                                      ++ shortCode' ++ "' for URL: " ++ URL req) st3)
                end
            end
        end
  end.

End Handler.

(** The place of a byte in a string, counting from 0. *)
Fixpoint index (c : ascii) (s : string) : option nat :=
  match s with
  | EmptyString => None
  | String d rest =>
      if Ascii.eqb d c then Some 0%nat else option_map S (index c rest)
  end.

End ShortenerService.


(** Worked settings of the shortener. *)

Module SampleShortener.

Fixpoint strip_prefix (prefix s : string) : option string :=
  match prefix, s with
  | EmptyString, _ => Some s
  | String c prefix', String d s' =>
      if Ascii.eqb c d then strip_prefix prefix' s' else None
  | String _ _, EmptyString => None
  end.

Fixpoint strip_suffix (suffix s : string) : option string :=
  if String.eqb s suffix then Some EmptyString
  else match s with
       | EmptyString => None
       | String c s' => option_map (String c) (strip_suffix suffix s')
       end.

(** A stand-in for the decoder in the worked settings: it reads the
    bodies that consist of the one member url, its value taken as it
    is. *)
Definition Decode (body : string) : option ShortenerService.ShortenRequest :=
  match strip_prefix ("{" ++ Sample.quote ++ "url" ++ Sample.quote ++ ":" ++ Sample.quote) body with
  | Some rest =>
      option_map (fun url => {| ShortenerService.URL := url |})
                 (strip_suffix (Sample.quote ++ "}") rest)
  | None => None
  end.

Definition body (url : string) : string :=
  "{" ++ Sample.member "url" url ++ "}".

Definition world (db : gmap string string) (draws : list nat) : ShortenerService.World :=
  {| ShortenerService.redisClient := Sample.store db [];
     ShortenerService.rand := draws;
     ShortenerService.randErr := errors_New "unexpected EOF";
     ShortenerService.logged := [] |}.

(** The draws that spell abc123 and q7Xk2m. *)
Definition abc123_draws : list nat := [0; 1; 2; 53; 54; 55]%nat.
Definition q7Xk2m_draws : list nat := [16; 59; 49; 10; 54; 12]%nat.

End SampleShortener.


(** ** analytics-service: the consumer of the click events and the counts *)

Module Mongo.

(** How the database answers one operation on the collection. *)
Inductive Reply : Type :=
| Answers
| Fails (reason : string).

(** The collection analytics.clicks: its documents in the order they were
    inserted, and how the database will answer the operations to come
    (it answers once the list is used up). *)
Record Collection : Type := {
  docs : list ClickEvent.t;
  replies : list Reply
}.

Definition next_reply (c : Collection) : Reply :=
  match replies c with
  | [] => Answers
  | reply :: _ => reply
  end.

Definition served (c : Collection) : Collection :=
  {| docs := docs c; replies := tail (replies c) |}.

Definition ErrNoDocuments : error := errors_New "mongo: no documents in result".

(** The documents with the given shortCode. *)
Definition matching (shortCode : string) (ds : list ClickEvent.t) : list ClickEvent.t :=
  filter (fun doc => ClickEvent.ShortCode doc = shortCode) ds.

(** The first document among those with the greatest timestamp. *)
Fixpoint latest (ds : list ClickEvent.t) : option ClickEvent.t :=
  match ds with
  | [] => None
  | doc :: rest =>
      match latest rest with
      | Some doc' =>
          if (ClickEvent.Timestamp doc <? ClickEvent.Timestamp doc')%Z
          then Some doc' else Some doc
      | None => Some doc
      end
  end.

(** A time.Time goes into a document as a BSON date, which counts the
    milliseconds since the epoch: of a time in nanoseconds, as the clock
    gives it, what is below the millisecond is cut off. *)
Definition DateTime (t : Z) : Z := (t / 1000000 * 1000000)%Z.

(** The document that the driver makes of a ClickEvent, as it decodes
    into a ClickEvent again. *)
Definition document (event : ClickEvent.t) : ClickEvent.t :=
  {| ClickEvent.ShortCode := ClickEvent.ShortCode event;
     ClickEvent.Timestamp := DateTime (ClickEvent.Timestamp event);
     ClickEvent.UserAgent := ClickEvent.UserAgent event;
     ClickEvent.IP := ClickEvent.IP event |}.

(** collection.InsertOne(ctx, event) *)
Definition InsertOne (c : Collection) (event : ClickEvent.t) : option error * Collection :=
  match next_reply c with
  | Fails reason => (Some (errors_New reason), served c)
  | Answers =>
      (None, {| docs := (docs c ++ [ document event ])%list;
                replies := tail (replies c) |})
  end.

(** collection.CountDocuments(ctx, bson.M{"shortCode": shortCode}) *)
Definition CountDocuments (c : Collection) (shortCode : string)
  : Z * option error * Collection :=
  match next_reply c with
  | Fails reason => (0%Z, Some (errors_New reason), served c)
  | Answers => (Z.of_nat (length (matching shortCode (docs c))), None, served c)
  end.

(** collection.FindOne(ctx, bson.M{"shortCode": shortCode}, opts).Decode(..)
    with the documents sorted by timestamp, the greatest first. Which of
    several documents with the greatest timestamp comes first is up to
    the database. *)
Definition FindOne_latest (c : Collection) (shortCode : string)
  : (error + ClickEvent.t) * Collection :=
  match next_reply c with
  | Fails reason => (inl (errors_New reason), served c)
  | Answers =>
      match latest (matching shortCode (docs c)) with
      | Some doc => (inr doc, served c)
      | None => (inl ErrNoDocuments, served c)
      end
  end.

(** A document that the $group stage of allStatsHandler puts out. *)
Record Group : Type := {
  _id : string;
  totalClicks : Z;
  lastClick : Z
}.

(** The $group stage: one document for every shortCode among the
    documents, with their number and their greatest timestamp. *)
Definition group (ds : list ClickEvent.t) : list Group :=
  (fun shortCode =>
     {| _id := shortCode;
        totalClicks := Z.of_nat (length (matching shortCode ds));
        lastClick := from_option ClickEvent.Timestamp 0%Z
                       (latest (matching shortCode ds)) |})
    <$> remove_dups (ClickEvent.ShortCode <$> ds).

(** The order of the $sort stage: the greater totalClicks first. *)
Definition more_clicks (g1 g2 : Group) : Prop :=
  (totalClicks g2 <= totalClicks g1)%Z.

#[global] Instance more_clicks_dec : RelDecision more_clicks :=
  fun g1 g2 => Z.le_dec (totalClicks g2) (totalClicks g1).

(** collection.Aggregate(ctx, pipeline) with the pipeline of
    allStatsHandler, read to its end. In which order the database puts
    out groups of equal totalClicks is up to it. *)
Definition Aggregate (c : Collection) : (error + list Group) * Collection :=
  match next_reply c with
  | Fails reason => (inl (errors_New reason), served c)
  | Answers => (inr (merge_sort more_clicks (group (docs c))), served c)
  end.

End Mongo.

Module AnalyticsService.

(** A message as kafkaReader.ReadMessage returns it. *)
Record Received : Type := {
  Message : Kafka.Message;
  Offset : Z
}.

Record StatsResponse : Type := {
  ShortCode : string;
  TotalClicks : Z;
  LastClick : option Z
}.

Record AllStatsResponse : Type := {
  StatsList : list StatsResponse;
  Total : Z
}.

(** What a handler gives to the JSON encoder. *)
Inductive Data : Type :=
| Stats (v : StatsResponse)
| AllStats (v : AllStatsResponse)
| ErrorMessage (message : string).   (* map[string]string{"error": message} *)

(** What a handler has written into its ResponseWriter. *)
Record Response : Type := {
  StatusCode : Z;
  ContentType : string;
  Encoded : Data
}.

(** The process: the collection, what ReadMessage will return for the
    calls to come (the call blocks once the list is used up), and the
    lines written through the log package. *)
Record World : Type := {
  collection : Mongo.Collection;
  kafkaReader : list (error + Received);
  logged : list string
}.

Definition with_collection (c : Mongo.Collection) (st : World) : World :=
  {| collection := c; kafkaReader := kafkaReader st; logged := logged st |}.

Definition with_reader (feed : list (error + Received)) (st : World) : World :=
  {| collection := collection st; kafkaReader := feed; logged := logged st |}.

Definition log_Printf (line : string) (st : World) : World :=
  {| collection := collection st; kafkaReader := kafkaReader st;
     logged := (logged st ++ [ line ])%list |}.

Definition respondJSON (status : Z) (data : Data) : Response :=
  {| StatusCode := status; ContentType := "application/json"; Encoded := data |}.

Definition respondError (status : Z) (message : string) : Response :=
  respondJSON status (ErrorMessage message).

Definition statsHandler (vars : Mux.Vars) (st : World) : Response * World :=
  let shortCode := Mux.Vars_get vars "shortCode" in
  let '(count, err, c1) := Mongo.CountDocuments (collection st) shortCode in
  match err with
  | Some e =>
      (respondError Http.StatusInternalServerError "Failed to get statistics",
       log_Printf ("[Analytics Service] Failed to count documents: " ++ Error e)
         (with_collection c1 st))
  | None =>
      let '(found, c2) := Mongo.FindOne_latest c1 shortCode in
      (respondJSON Http.StatusOK
         (Stats {| ShortCode := shortCode;
                   TotalClicks := count;
                   LastClick := match found with
                                | inr lastClick => Some (ClickEvent.Timestamp lastClick)
                                | inl _ => None
                                end |}),
       with_collection c2 st)
  end.

(** What allStatsHandler makes of a document of the cursor. *)
Definition stats_of (g : Mongo.Group) : StatsResponse :=
  {| ShortCode := Mongo._id g;
     TotalClicks := Mongo.totalClicks g;
     LastClick := Some (Mongo.lastClick g) |}.

(** allStatsHandler. The documents of the cursor are those of the
    pipeline, which all decode into the struct of the loop; a list
    without entries stands for the empty slice that the handler sends in
    place of nil. *)
Definition allStatsHandler (st : World) : Response * World :=
  let '(result, c) := Mongo.Aggregate (collection st) in
  match result with
  | inl e =>
      (respondError Http.StatusInternalServerError "Failed to get statistics",
       log_Printf ("[Analytics Service] Failed to aggregate stats: " ++ Error e)
         (with_collection c st))
  | inr cursor =>
      let stats := stats_of <$> cursor in
      (respondJSON Http.StatusOK
         (AllStats {| StatsList := stats; Total := Z.of_nat (length stats) |}),
       with_collection c st)
  end.

Section Consumer.

(** json.Unmarshal(msg.Value, &event) *)
Variable json_Unmarshal : string -> error + ClickEvent.t.

(** One round of the loop of consumeKafkaMessages, on what ReadMessage
    returned. *)
Definition consumeOne (read : error + Received) (st : World) : World :=
  match read with
  | inl e => log_Printf ("[Analytics Service] Error reading message: " ++ Error e) st
  | inr msg =>
      match json_Unmarshal (Kafka.Value (Message msg)) with
      | inl e =>
          log_Printf ("[Analytics Service] Failed to unmarshal message: " ++ Error e) st
      | inr event =>
          let '(err, c) := Mongo.InsertOne (collection st) event in
          let st1 := with_collection c st in
          match err with
          | Some e =>
              log_Printf ("[Analytics Service] Failed to insert click event: "
                          ++ Error e) st1
          | None =>
              log_Printf ("[Analytics Service] Processed click event for '"
                          ++ ClickEvent.ShortCode event ++ "' from Kafka (offset: "
                          ++ DecimalString.NilZero.string_of_int (Z.to_int (Offset msg))
                          ++ ")") st1
          end
      end
  end.

Fixpoint rounds (feed : list (error + Received)) (st : World) : World :=
  match feed with
  | [] => with_reader [] st
  | read :: rest => rounds rest (consumeOne read (with_reader rest st))
  end.

(** consumeKafkaMessages up to the call of ReadMessage that blocks. *)
Definition consumeKafkaMessages (st : World) : World :=
  rounds (kafkaReader st) (log_Printf "[Analytics Service] Starting Kafka consumer..." st).

(** The events that the values of the received messages decode to, in
    the order of the messages. *)
Fixpoint events (feed : list (error + Received)) : list ClickEvent.t :=
  match feed with
  | [] => []
  | inr msg :: rest =>
      match json_Unmarshal (Kafka.Value (Message msg)) with
      | inr event => event :: events rest
      | inl _ => events rest
      end
  | inl _ :: rest => events rest
  end.

End Consumer.

End AnalyticsService.


(** Worked settings of the analytics service. *)

Module SampleAnalytics.

Fixpoint until_quote (s : string) : option (string * string) :=
  match s with
  | EmptyString => None
  | String c rest =>
      if Ascii.eqb c "034"%char then Some (EmptyString, rest)
      else match until_quote rest with
           | Some (value, rest') => Some (String c value, rest')
           | None => None
           end
  end.

Definition read_member (name s : string) : option (string * string) :=
  match SampleShortener.strip_prefix
          (Sample.quote ++ name ++ Sample.quote ++ ":" ++ Sample.quote) s with
  | Some rest => until_quote rest
  | None => None
  end.

(** A stand-in for json.Unmarshal in the worked settings: it reads what
    [Sample.Marshal] writes. *)
Definition Unmarshal (value : string) : error + ClickEvent.t :=
  match
    rest0 ← SampleShortener.strip_prefix "{" value;
    '(shortCode, rest1) ← read_member "shortCode" rest0;
    rest2 ← SampleShortener.strip_prefix "," rest1;
    '(timestamp, rest3) ← read_member "timestamp" rest2;
    rest4 ← SampleShortener.strip_prefix "," rest3;
    '(userAgent, rest5) ← read_member "userAgent" rest4;
    rest6 ← SampleShortener.strip_prefix "," rest5;
    '(ip, rest7) ← read_member "ip" rest6;
    t ← DecimalString.NilZero.int_of_string timestamp;
    if String.eqb rest7 "}"
    then Some {| ClickEvent.ShortCode := shortCode;
                 ClickEvent.Timestamp := Z.of_int t;
                 ClickEvent.UserAgent := userAgent;
                 ClickEvent.IP := ip |}
    else None
  with
  | Some event => inr event
  | None => inl (errors_New "invalid character looking for beginning of value")
  end.

Definition click (shortCode : string) (t : Z) : ClickEvent.t :=
  {| ClickEvent.ShortCode := shortCode; ClickEvent.Timestamp := t;
     ClickEvent.UserAgent := "curl/8.4.0"; ClickEvent.IP := "172.18.0.1:51234" |}.

Definition received (shortCode : string) (t offset : Z) : error + AnalyticsService.Received :=
  inr {| AnalyticsService.Message :=
           {| Kafka.Key := shortCode;
              Kafka.Value := fst (Sample.Marshal (click shortCode t)) |};
         AnalyticsService.Offset := offset |}.

Definition garbled (offset : Z) : error + AnalyticsService.Received :=
  inr {| AnalyticsService.Message := {| Kafka.Key := "abc123"; Kafka.Value := "{" |};
         AnalyticsService.Offset := offset |}.

Definition world (ds : list ClickEvent.t) (replies : list Mongo.Reply)
    (feed : list (error + AnalyticsService.Received)) : AnalyticsService.World :=
  {| AnalyticsService.collection := {| Mongo.docs := ds; Mongo.replies := replies |};
     AnalyticsService.kafkaReader := feed;
     AnalyticsService.logged := [] |}.

(** Two clicks on abc123 around a click on q7Xk2m, a failed read and a
    message that does not decode. *)
Definition feed : list (error + AnalyticsService.Received) :=
  [ received "abc123" 1700000000000000000 0;
    inl (errors_New "fetching message: EOF");
    received "q7Xk2m" 1700000001000000000 1;
    garbled 2;
    received "abc123" 1700000002000000000 3 ].

End SampleAnalytics.







(** * Properties *)

Import RedirectService.

(** ** Splitting and routing *)

Lemma Split_without_separator (sep : ascii) (s : string) :
  Strings.contains sep s = false -> Strings.Split sep s = [ s ].
Proof.
  induction s as [| c rest IH]; simpl; intros Hno.
  - reflexivity.
  - apply orb_false_iff in Hno as [Hc Hrest].
    rewrite Hc, (IH Hrest). reflexivity.
Qed.

Lemma all_bytes_exclude (p : ascii -> bool) (c : ascii) (s : string) :
  Strings.all_bytes p s = true -> p c = false -> Strings.contains c s = false.
Proof.
  intros Hall Hc. induction s as [| d rest IH]; simpl in *.
  - reflexivity.
  - apply andb_true_iff in Hall as [Hd Hrest].
    rewrite (IH Hrest), orb_false_r.
    destruct (Ascii.eqb_spec d c) as [-> |]; [congruence | reflexivity].
Qed.

Lemma code_without_slash (C : string) :
  Shortener.is_code C = true -> Strings.contains "/"%char C = false.
Proof.
  unfold Shortener.is_code. intros H.
  apply andb_true_iff in H as [_ Hall].
  apply (all_bytes_exclude _ _ _ Hall). reflexivity.
Qed.

Lemma code_nonempty (C : string) :
  Shortener.is_code C = true -> Strings.nonempty C = true.
Proof.
  unfold Shortener.is_code. intros H. apply andb_true_iff in H. tauto.
Qed.

Lemma match_path_health (C : string) :
  Strings.contains "/"%char C = false ->
  Mux.match_path "/health" ("/" ++ C)
  = if bool_decide ("health" = C) then Some [] else None.
Proof.
  intros Hno. unfold Mux.match_path.
  change (Strings.Split "/"%char ("/" ++ C))
    with (EmptyString :: Strings.Split "/"%char C).
  rewrite (Split_without_separator _ _ Hno).
  change (Mux.segments "/health") with [ Mux.Lit "health" ].
  simpl. destruct (bool_decide ("health" = C)); reflexivity.
Qed.

Lemma match_path_shortCode (C : string) :
  Strings.contains "/"%char C = false ->
  Mux.match_path "/{shortCode}" ("/" ++ C)
  = if Strings.nonempty C then Some [ ("shortCode", C) ] else None.
Proof.
  intros Hno. unfold Mux.match_path.
  change (Strings.Split "/"%char ("/" ++ C))
    with (EmptyString :: Strings.Split "/"%char C).
  rewrite (Split_without_separator _ _ Hno).
  change (Mux.segments "/{shortCode}") with [ Mux.Var "shortCode" ].
  simpl. destruct (Strings.nonempty C); reflexivity.
Qed.

(** A code over the alphabet of the shortener reaches redirectHandler,
    unless it spells the path of the health route. *)
Lemma route_of_code (C : string) (h : gmap string (list string)) (peer : string) :
  Shortener.is_code C = true -> C <> "health" ->
  Mux.Match router (GET C h peer) false
  = Mux.Matched redirectHandler [ ("shortCode", C) ].
Proof.
  intros Hcode Hne.
  pose proof (code_without_slash C Hcode) as Hno.
  pose proof (code_nonempty C Hcode) as Hnonempty.
  unfold router, GET. cbn [Mux.Match Mux.template Mux.methods Mux.handler Http.Path Http.Method].
  rewrite (match_path_health C Hno).
  rewrite bool_decide_eq_false_2 by congruence.
  rewrite (match_path_shortCode C Hno), Hnonempty.
  reflexivity.
Qed.

(** The path /health goes to healthHandler, whatever the store holds. *)
Lemma route_of_health (h : gmap string (list string)) (peer : string) :
  Mux.Match router (GET "health" h peer) false = Mux.Matched healthHandler [].
Proof. reflexivity. Qed.

(** ** net/http replies *)



Lemma Error_StatusCode (w : Http.Response) (msg : string) (code : Z) :
  Http.StatusCode (Http.Error w msg code) = code.
Proof. reflexivity. Qed.

Lemma Error_Location (w : Http.Response) (msg : string) (code : Z) :
  Http.Location (Http.Error w msg code) = Http.Location w.
Proof.
  unfold Http.Error, Http.Location. cbn.
  rewrite !lookup_insert_ne by discriminate. reflexivity.
Qed.

Lemma Vars_get_shortCode (C : string) :
  Mux.Vars_get [ ("shortCode", C) ] "shortCode" = C.
Proof. reflexivity. Qed.

(** ** The three ways of redirectHandler *)


Lemma redirectHandler_not_found (w : Http.Response) (vars : Mux.Vars)
    (r : Http.Request) (st : World) :
  Redis.next_reply (redisClient st) = Redis.Answers ->
  Redis.db (redisClient st) !! ("url:" ++ Mux.Vars_get vars "shortCode") = None ->
  redirectHandler w vars r st
  = (Http.Error w "Short URL not found" Http.StatusNotFound,
     log_Printf ("[Redirect Service] Short code '" ++ Mux.Vars_get vars "shortCode"
                 ++ "' not found")
       (with_redis (Redis.served (redisClient st)) st)).
Proof.
  intros Hreply Hdb. unfold redirectHandler, resolve, Redis.Get.
  rewrite Hreply, Hdb. reflexivity.
Qed.

Lemma redirectHandler_unavailable (w : Http.Response) (vars : Mux.Vars)
    (r : Http.Request) (st : World) (reason : string) :
  Redis.next_reply (redisClient st) = Redis.Fails reason ->
  redirectHandler w vars r st
  = (Http.Error w "Internal server error" Http.StatusInternalServerError,
     log_Printf ("[Redirect Service] Redis error: " ++ reason)
       (with_redis (Redis.served (redisClient st)) st)).
Proof.
  intros Hreply. unfold redirectHandler, resolve, Redis.Get.
  rewrite Hreply. reflexivity.
Qed.

(** ** C1 *)




(** ** C3 *)

(** C3, as amended. For every short code C over the alphabet of the
    shortener other than "health": when the store answers and holds
    nothing under "url:" + C, the GET request for /C is answered with 404
    and no Location, no publisher is started, and writer and log are left
    as they were. *)
Theorem unknown_code_not_found (C : string) (h : gmap string (list string))
    (peer : string) (st : World) :
  Shortener.is_code C = true ->
  C <> "health" ->
  Redis.next_reply (redisClient st) = Redis.Answers ->
  Redis.db (redisClient st) !! ("url:" ++ C) = None ->
  Http.StatusCode (fst (ServeHTTP (GET C h peer) st)) = Http.StatusNotFound /\
  Http.Location (fst (ServeHTTP (GET C h peer) st)) = None /\
  goroutines (snd (ServeHTTP (GET C h peer) st)) = goroutines st /\
  kafkaWriter (snd (ServeHTTP (GET C h peer) st)) = kafkaWriter st /\
  eventLog (snd (ServeHTTP (GET C h peer) st)) = eventLog st.
Proof.
  intros Hcode Hne Hreply Hdb. unfold ServeHTTP.
  rewrite (route_of_code C h peer Hcode Hne).
  rewrite (redirectHandler_not_found _ _ _ _ Hreply)
    by (rewrite Vars_get_shortCode; exact Hdb).
  cbn [fst snd]. repeat split.
Qed.

Lemma unknown_code_not_found_witness :
  Http.StatusCode
    (fst (ServeHTTP (GET "doesnotexist" Sample.browser Sample.peer)
            (Sample.world (Sample.store Sample.abc123 []) (Sample.topic 1 []))))
  = Http.StatusNotFound.
Proof.
  apply (unknown_code_not_found "doesnotexist").
  - reflexivity.
  - discriminate.
  - reflexivity.
  - reflexivity.
Defined.

(** C3 as stated fails for the code "health" when the store holds nothing
    under "url:health": the GET request for /health is answered by the
    health route with 200, not with 404. *)
Lemma health_path_is_not_404 :
  Shortener.is_code "health" = true /\
  Redis.db (Sample.store Sample.abc123 []) !! ("url:" ++ "health") = None /\
  Http.StatusCode
    (fst (ServeHTTP (GET "health" Sample.browser Sample.peer)
            (Sample.world (Sample.store Sample.abc123 []) (Sample.topic 1 []))))
  = Http.StatusOK /\
  Http.StatusOK <> Http.StatusNotFound.
Proof.
  split; [reflexivity |]. split; [reflexivity |]. split; [reflexivity |].
  discriminate.
Qed.

(** ** C6 *)

(** C6. When the lookup of redirectHandler fails with an error other than
    redis.Nil, the handler answers 500 and sets no Location, starts no
    publisher, leaves writer and log alone, and has sent the store one
    command only: it does not ask again, whatever the store would answer
    next. *)
Theorem store_failure_is_500 (w : Http.Response) (vars : Mux.Vars) (r : Http.Request)
    (st : World) (reason : string) :
  Redis.next_reply (redisClient st) = Redis.Fails reason ->
  Http.StatusCode (fst (redirectHandler w vars r st)) = Http.StatusInternalServerError /\
  Http.Location (fst (redirectHandler w vars r st)) = Http.Location w /\
  goroutines (snd (redirectHandler w vars r st)) = goroutines st /\
  kafkaWriter (snd (redirectHandler w vars r st)) = kafkaWriter st /\
  eventLog (snd (redirectHandler w vars r st)) = eventLog st /\
  Redis.replies (redisClient (snd (redirectHandler w vars r st)))
  = tail (Redis.replies (redisClient st)).
Proof.
  intros Hreply. rewrite (redirectHandler_unavailable _ _ _ _ reason Hreply).
  cbn [fst snd]. split; [reflexivity |]. split; [apply Error_Location |].
  repeat split.
Qed.

Lemma store_failure_is_500_witness :
  Http.StatusCode
    (fst (redirectHandler Http.NewResponseWriter [ ("shortCode", "abc123") ]
            (GET "abc123" Sample.browser Sample.peer)
            (Sample.world
               (Sample.store Sample.abc123 [ Redis.Fails "dial tcp: connection refused" ])
               (Sample.topic 1 []))))
  = Http.StatusInternalServerError.
Proof.
  apply (store_failure_is_500 Http.NewResponseWriter [ ("shortCode", "abc123") ]
           (GET "abc123" Sample.browser Sample.peer)
           (Sample.world
              (Sample.store Sample.abc123 [ Redis.Fails "dial tcp: connection refused" ])
              (Sample.topic 1 []))
           "dial tcp: connection refused").
  reflexivity.
Defined.

(** ** C7 *)

(** C7. The address recorded in the click event of a request is the first
    non-empty one of: the value of X-Forwarded-For, the value of
    X-Real-IP, the peer address; the peer address when both headers are
    empty. *)
Theorem client_address_precedence (shortCode : string) (r : Http.Request) (t : Z) :
  ClickEvent.IP (clickEvent shortCode r t)
  = first_non_empty
      [ Http.Header_Get (Http.Header r) "X-Forwarded-For";
        Http.Header_Get (Http.Header r) "X-Real-IP" ]
      (Http.RemoteAddr r).
Proof. reflexivity. Qed.

Lemma getIP_cases (r : Http.Request) :
  let forwarded := Http.Header_Get (Http.Header r) "X-Forwarded-For" in
  let realIP := Http.Header_Get (Http.Header r) "X-Real-IP" in
  (forwarded <> "" -> getIP r = forwarded) /\
  (forwarded = "" -> realIP <> "" -> getIP r = realIP) /\
  (forwarded = "" -> realIP = "" -> getIP r = Http.RemoteAddr r).
Proof.
  unfold getIP. cbn zeta.
  destruct (Http.Header_Get (Http.Header r) "X-Forwarded-For") as [| c rest];
    destruct (Http.Header_Get (Http.Header r) "X-Real-IP") as [| d rest'];
    cbn; repeat split; intros; congruence.
Qed.

(** A request that came through a proxy: the header map holds X-Real-IP
    under its canonical name, and its value wins over the peer address. *)
Example getIP_behind_proxy :
  getIP (GET "abc123" {[ "X-Real-Ip" := [ "203.0.113.7" ] ]} Sample.peer)
  = "203.0.113.7" /\
  getIP (GET "abc123"
           {[ "X-Forwarded-For" := [ "198.51.100.4, 10.0.0.2" ];
              "X-Real-Ip" := [ "203.0.113.7" ] ]} Sample.peer)
  = "198.51.100.4, 10.0.0.2" /\
  getIP (GET "abc123" Sample.browser Sample.peer) = Sample.peer.
Proof. repeat split. Qed.

(** ** C8 and C10 *)

Lemma ServeHTTP_health (h : gmap string (list string)) (peer : string) (st : World) :
  ServeHTTP (GET "health" h peer) st
  = healthHandler Http.NewResponseWriter [] (GET "health" h peer) st.
Proof. reflexivity. Qed.

(** C8. GET /health answers with the JSON document of the three members
    status, service and timestamp, and the status is "healthy" exactly
    when the ping of the store came back without an error (a ping that
    ran into the timeout of the client comes back with one). *)
Theorem health_reports_the_store (h : gmap string (list string)) (peer : string)
    (st : World) :
  exists status : string,
    Http.RespBody (fst (ServeHTTP (GET "health" h peer) st))
    = Http.JSONBody [ ("status", Http.JString status);
                      ("service", Http.JString "redirect-service");
                      ("timestamp", Http.JTime (now st)) ] /\
    (status = "healthy" <-> snd (fst (Redis.Ping (redisClient st))) = None).
Proof.
  rewrite ServeHTTP_health. unfold healthHandler, health, Redis.Ping.
  destruct (Redis.next_reply (redisClient st)) as [| reason]; cbn.
  - exists "healthy". split; [reflexivity |]. split; reflexivity.
  - exists "unhealthy". split; [reflexivity |]. split; discriminate.
Qed.

(** C10. GET /health answers with status code 200 whatever the ping of the
    store gave: a failed ping shows in the status member of the body only,
    which reads "unhealthy" then and "healthy" otherwise. *)
Theorem health_is_always_200 (h : gmap string (list string)) (peer : string)
    (st : World) :
  Http.StatusCode (fst (ServeHTTP (GET "health" h peer) st)) = Http.StatusOK /\
  Http.RespBody (fst (ServeHTTP (GET "health" h peer) st))
  = Http.JSONBody
      [ ("status",
         Http.JString match Redis.next_reply (redisClient st) with
                      | Redis.Answers => "healthy"
                      | Redis.Fails _ => "unhealthy"
                      end);
        ("service", Http.JString "redirect-service");
        ("timestamp", Http.JTime (now st)) ].
Proof.
  rewrite ServeHTTP_health. unfold healthHandler, health, Redis.Ping.
  destruct (Redis.next_reply (redisClient st)); split; reflexivity.
Qed.

(** ** C2 *)



(** ** What the handlers read and what they leave alone *)

Lemma Match_router_handler (r : Http.Request) (hf : HandlerFunc) (vars : Mux.Vars) :
  Mux.Match router r false = Mux.Matched hf vars ->
  hf = healthHandler \/ hf = redirectHandler.
Proof.
  unfold router.
  cbn [Mux.Match Mux.template Mux.methods Mux.handler].
  repeat match goal with
         | |- context [match ?x with _ => _ end] => destruct x
         end; intros H; inversion H; subst; auto.
Qed.

Lemma healthHandler_db (w : Http.Response) (vars : Mux.Vars) (r : Http.Request)
    (st : World) :
  Redis.db (redisClient (snd (healthHandler w vars r st))) = Redis.db (redisClient st).
Proof.
  unfold healthHandler, health, Redis.Ping.
  destruct (Redis.next_reply (redisClient st)); reflexivity.
Qed.

Lemma redirectHandler_db (w : Http.Response) (vars : Mux.Vars) (r : Http.Request)
    (st : World) :
  Redis.db (redisClient (snd (redirectHandler w vars r st))) = Redis.db (redisClient st).
Proof.
  unfold redirectHandler, resolve, Redis.Get.
  destruct (Redis.next_reply (redisClient st));
    [destruct (Redis.db (redisClient st) !! _) |]; reflexivity.
Qed.

Lemma ServeHTTP_db (r : Http.Request) (st : World) :
  Redis.db (redisClient (snd (ServeHTTP r st))) = Redis.db (redisClient st).
Proof.
  unfold ServeHTTP.
  destruct (Mux.Match router r false) as [hf vars | |] eqn:Hmatch;
    [| reflexivity | reflexivity].
  destruct (Match_router_handler r hf vars Hmatch) as [-> | ->].
  - apply healthHandler_db.
  - apply redirectHandler_db.
Qed.

(** The answer to a request is made from the store and the clock. *)
Lemma ServeHTTP_reads (r : Http.Request) (st1 st2 : World) :
  redisClient st1 = redisClient st2 -> now st1 = now st2 ->
  fst (ServeHTTP r st1) = fst (ServeHTTP r st2).
Proof.
  intros Hredis Hnow. unfold ServeHTTP.
  destruct (Mux.Match router r false) as [hf vars | |] eqn:Hmatch;
    [| reflexivity | reflexivity].
  destruct (Match_router_handler r hf vars Hmatch) as [-> | ->].
  - unfold healthHandler, health, Redis.Ping. rewrite Hredis, Hnow.
    destruct (Redis.next_reply (redisClient st2)); reflexivity.
  - unfold redirectHandler, resolve, Redis.Get. rewrite Hredis.
    destruct (Redis.next_reply (redisClient st2));
      [destruct (Redis.db (redisClient st2) !! _) |]; reflexivity.
Qed.

(** ** kafka-go: the balancer and the writer *)

Lemma Balance_ignores_the_message (lb : Kafka.LeastBytes) (msg msg' : Kafka.Message)
    (numPartitions : nat) :
  fst (Kafka.Balance lb msg numPartitions) = fst (Kafka.Balance lb msg' numPartitions).
Proof.
  unfold Kafka.Balance.
  destruct (if (length lb =? numPartitions)%nat then lb
            else Kafka.makeCounters numPartitions); reflexivity.
Qed.

Lemma Balance_single_partition (lb : Kafka.LeastBytes) (msg : Kafka.Message) :
  fst (Kafka.Balance lb msg 1) = 0%nat.
Proof.
  unfold Kafka.Balance.
  destruct (length lb =? 1)%nat eqn:Hlen.
  - apply Nat.eqb_eq in Hlen.
    destruct lb as [| c0 [| c1 rest]]; try discriminate. reflexivity.
  - reflexivity.
Qed.

(** A call that the log does not stall returns; it has used up one reply
    of the log, and a call that returns an error has written nothing. *)
Lemma WriteMessages_returns (w : Kafka.Writer) (b : Kafka.Broker) (msg : Kafka.Message) :
  Kafka.next_reply b <> Kafka.Stalls ->
  exists (err : option error) (w' : Kafka.Writer) (b' : Kafka.Broker),
    Kafka.WriteMessages w b msg = Some (err, w', b') /\
    Kafka.replies b' = tail (Kafka.replies b) /\
    (err <> None -> Kafka.partitions b' = Kafka.partitions b).
Proof.
  intros Hreply. unfold Kafka.WriteMessages.
  destruct (Kafka.next_reply b) as [| reason | reason |]; [| | | congruence].
  - destruct (Kafka.partitions b) as [| log0 logs] eqn:Hparts.
    + eexists _, _, _. split; [reflexivity |]. split; [reflexivity |].
      intros _. cbn. exact Hparts.
    + destruct (Kafka.Balance _ _ _) as [p lb].
      eexists _, _, _. split; [reflexivity |]. split; [reflexivity |].
      intros Herr. congruence.
  - eexists _, _, _. split; [reflexivity |]. split; reflexivity.
  - destruct (Kafka.partitions b) as [| log0 logs] eqn:Hparts.
    + eexists _, _, _. split; [reflexivity |]. split; [reflexivity |].
      intros _. cbn. exact Hparts.
    + destruct (Kafka.Balance _ _ _) as [p lb].
      eexists _, _, _. split; [reflexivity |]. split; [reflexivity |].
      intros _. cbn. exact Hparts.
Qed.

(** What a call writes, if anything: one message, at the end of the
    partition that the balancer picks. *)
Lemma WriteMessages_partitions (w w' : Kafka.Writer) (b b' : Kafka.Broker)
    (msg : Kafka.Message) (err : option error) :
  Kafka.WriteMessages w b msg = Some (err, w', b') ->
  Kafka.partitions b' = Kafka.partitions b \/
  Kafka.partitions b'
  = alter (fun log => (log ++ [ msg ])%list)
      (fst (Kafka.Balance (Kafka.Balancer w) msg (length (Kafka.partitions b))))
      (Kafka.partitions b).
Proof.
  unfold Kafka.WriteMessages.
  destruct (Kafka.next_reply b) as [| reason | reason |];
    try (destruct (Kafka.partitions b) as [| log0 logs] eqn:Hparts;
         [| destruct (Kafka.Balance _ _ _) as [p lb] eqn:Hbal]);
    intros H; inversion H; subst; cbn; rewrite ?Hparts; auto.
Qed.

(** ** The publisher *)

Section PublisherProperties.

Variable json_Marshal : ClickEvent.t -> string * option error.

Lemma publishClickEvent_redis (shortCode : string) (r : Http.Request) (st st' : World) :
  publishClickEvent json_Marshal shortCode r st = Some st' ->
  redisClient st' = redisClient st /\ now st' = now st /\
  goroutines st' = goroutines st.
Proof.
  unfold publishClickEvent.
  destruct (json_Marshal _) as [jsonData [e |]].
  - intros H. inversion H. repeat split.
  - destruct (Kafka.WriteMessages _ _ _) as [[[[e |] w] b] |];
      intros H; inversion H; repeat split.
Qed.

Lemma step_db (st st' : World) :
  step json_Marshal st st' ->
  Redis.db (redisClient st') = Redis.db (redisClient st).
Proof.
  intros Hstep. destruct Hstep as [r st | i g st st' _ Hrun | t st].
  - apply ServeHTTP_db.
  - destruct g as [shortCode r]. cbn in Hrun.
    apply publishClickEvent_redis in Hrun as (-> & _ & _). reflexivity.
  - reflexivity.
Qed.

Lemma steps_db (st st' : World) :
  steps json_Marshal st st' ->
  Redis.db (redisClient st') = Redis.db (redisClient st).
Proof.
  induction 1 as [st | st1 st2 st3 Hstep _ IH].
  - reflexivity.
  - rewrite IH. exact (step_db _ _ Hstep).
Qed.

End PublisherProperties.

(** ** C9 *)

(** C9. Whatever the process does between two lookups of a short code
    (requests served, publishers run, the clock moving), two lookups that
    the store answers with a destination give the same destination, and
    neither a lookup nor anything else the process does changes a key of
    the mapping store. *)
Theorem resolve_is_idempotent (json_Marshal : ClickEvent.t -> string * option error)
    (st st' : World) (C D D' : string) (c c' : Redis.Client) :
  steps json_Marshal st st' ->
  resolve C (redisClient st) = (D, None, c) ->
  resolve C (redisClient st') = (D', None, c') ->
  D = D' /\
  Redis.db c = Redis.db (redisClient st) /\
  Redis.db (redisClient st') = Redis.db (redisClient st).
Proof.
  intros Hsteps Hfirst Hsecond.
  pose proof (steps_db json_Marshal st st' Hsteps) as Hdb.
  unfold resolve, Redis.Get in Hfirst, Hsecond. rewrite Hdb in Hsecond.
  destruct (Redis.next_reply (redisClient st)); [| discriminate].
  destruct (Redis.next_reply (redisClient st')); [| discriminate].
  destruct (Redis.db (redisClient st) !! ("url:" ++ C)) as [value |];
    [| discriminate].
  inversion Hfirst; inversion Hsecond; subst.
  split; [reflexivity |]. split; [reflexivity | exact Hdb].
Qed.

Lemma resolve_is_idempotent_witness :
  "https://example.com" = "https://example.com" /\
  Redis.db (Redis.served (Sample.store Sample.abc123 [])) = Sample.abc123 /\
  Redis.db
    (redisClient
       (snd (ServeHTTP (GET "abc123" Sample.browser Sample.peer)
               (Sample.world (Sample.store Sample.abc123 []) (Sample.topic 1 [])))))
  = Sample.abc123.
Proof.
  apply (resolve_is_idempotent Sample.Marshal
           (Sample.world (Sample.store Sample.abc123 []) (Sample.topic 1 []))
           (snd (ServeHTTP (GET "abc123" Sample.browser Sample.peer)
                   (Sample.world (Sample.store Sample.abc123 []) (Sample.topic 1 []))))
           "abc123" "https://example.com" "https://example.com"
           (Redis.served (Sample.store Sample.abc123 []))
           (Redis.served (Redis.served (Sample.store Sample.abc123 [])))).
  - eapply steps_step; [apply step_request | apply steps_refl].
  - reflexivity.
  - reflexivity.
Defined.

(** ** C4 *)

(** C4, as amended. Whatever publishClickEvent writes to the log is one
    message whose key is the short code, so two events of one short code
    carry the same key. The partition is the one the LeastBytes balancer
    of the writer picks from the bytes sent to each partition so far: the
    pick is the same whatever the key and the value of the message are.
    On a topic with a single partition the message goes to the end of
    that partition, after the events published before it. *)
Theorem publish_key_and_partition (json_Marshal : ClickEvent.t -> string * option error)
    (shortCode : string) (r : Http.Request) (st st' : World) :
  publishClickEvent json_Marshal shortCode r st = Some st' ->
  (Kafka.partitions (eventLog st') = Kafka.partitions (eventLog st) \/
   exists value : string,
     Kafka.partitions (eventLog st')
     = alter (fun log => (log ++ [ {| Kafka.Key := shortCode; Kafka.Value := value |} ])%list)
         (fst (Kafka.Balance (Kafka.Balancer (kafkaWriter st))
                 {| Kafka.Key := shortCode; Kafka.Value := value |}
                 (length (Kafka.partitions (eventLog st)))))
         (Kafka.partitions (eventLog st))) /\
  (forall (otherCode value value' : string),
     fst (Kafka.Balance (Kafka.Balancer (kafkaWriter st))
            {| Kafka.Key := shortCode; Kafka.Value := value |}
            (length (Kafka.partitions (eventLog st))))
     = fst (Kafka.Balance (Kafka.Balancer (kafkaWriter st))
              {| Kafka.Key := otherCode; Kafka.Value := value' |}
              (length (Kafka.partitions (eventLog st))))) /\
  (forall log0 : list Kafka.Message,
     Kafka.partitions (eventLog st) = [ log0 ] ->
     Kafka.partitions (eventLog st') = [ log0 ] \/
     exists value : string,
       Kafka.partitions (eventLog st')
       = [ (log0 ++ [ {| Kafka.Key := shortCode; Kafka.Value := value |} ])%list ]).
Proof.
  intros Hpublish.
  assert (Kafka.partitions (eventLog st') = Kafka.partitions (eventLog st) \/
          exists value : string,
            Kafka.partitions (eventLog st')
            = alter (fun log =>
                       (log ++ [ {| Kafka.Key := shortCode; Kafka.Value := value |} ])%list)
                (fst (Kafka.Balance (Kafka.Balancer (kafkaWriter st))
                        {| Kafka.Key := shortCode; Kafka.Value := value |}
                        (length (Kafka.partitions (eventLog st)))))
                (Kafka.partitions (eventLog st))) as Hwritten.
  { unfold publishClickEvent in Hpublish.
    destruct (json_Marshal _) as [jsonData [e |]].
    - inversion Hpublish. left. reflexivity.
    - destruct (Kafka.WriteMessages _ _ _) as [[[err w] b] |] eqn:Hwrite;
        [| discriminate].
      apply WriteMessages_partitions in Hwrite.
      assert (eventLog st' = b) as ->
          by (destruct err; inversion Hpublish; reflexivity).
      destruct Hwrite as [Hsame | Happended]; [left; exact Hsame |].
      right. exists jsonData. exact Happended. }
  split; [exact Hwritten |]. split.
  - intros otherCode value value'. apply Balance_ignores_the_message.
  - intros log0 Hsingle. destruct Hwritten as [Hsame | [value Happended]].
    + left. rewrite Hsame. exact Hsingle.
    + right. exists value. rewrite Happended, Hsingle.
      cbn [length]. rewrite Balance_single_partition. reflexivity.
Qed.

Lemma publish_key_and_partition_witness :
  exists st' : World,
    publishClickEvent Sample.Marshal "abc123" (GET "abc123" Sample.browser Sample.peer)
      (Sample.world (Sample.store Sample.abc123 []) (Sample.topic 1 []))
    = Some st' /\
    (Kafka.partitions (eventLog st') = [ [] ] \/
     exists value : string,
       Kafka.partitions (eventLog st')
       = [ [ {| Kafka.Key := "abc123"; Kafka.Value := value |} ] ]).
Proof.
  destruct (publishClickEvent Sample.Marshal "abc123"
              (GET "abc123" Sample.browser Sample.peer)
              (Sample.world (Sample.store Sample.abc123 []) (Sample.topic 1 [])))
    as [st' |] eqn:Hpublish.
  - exists st'. split; [reflexivity |].
    exact (proj2 (proj2 (publish_key_and_partition Sample.Marshal "abc123"
                           (GET "abc123" Sample.browser Sample.peer)
                           (Sample.world (Sample.store Sample.abc123 [])
                              (Sample.topic 1 []))
                           st' Hpublish))
             [] eq_refl).
  - vm_compute in Hpublish. discriminate Hpublish.
Defined.

(** The end-to-end scenario on a topic with one partition: five clicks
    on abc123 leave five events with that key, in one partition. *)
Example five_clicks_on_one_partition :
  option_map Sample.keys
    (Sample.clicks [ "abc123"; "abc123"; "abc123"; "abc123"; "abc123" ]
       (Sample.world (Sample.store Sample.abc123 []) (Sample.topic 1 [])))
  = Some [ [ "abc123"; "abc123"; "abc123"; "abc123"; "abc123" ] ].
Proof. vm_compute. reflexivity. Qed.

(** C4 as stated fails on a topic with two partitions: of two clicks on
    the same short code, the first event lands in partition 0 and the
    second, with the same key, in partition 1. *)
Lemma same_code_lands_in_two_partitions :
  option_map Sample.keys
    (Sample.clicks [ "abc123"; "abc123" ]
       (Sample.world (Sample.store Sample.abc123 []) (Sample.topic 2 [])))
  = Some [ [ "abc123" ]; [ "abc123" ] ].
Proof. vm_compute. reflexivity. Qed.

(** ** C5 *)

(** C5, as amended. A publication that the log does not stall returns,
    and its effect stays within the publisher: store, clock and the
    goroutines in flight are as before, and so is the answer to every
    request. A serialization error is logged, and nothing is handed to
    the writer. Otherwise the writer is called once, and an error that
    the call returns is logged while nothing is written; the publisher
    does not call again. (A write that an asynchronous writer loses after
    the call has returned is not among the errors returned.) *)
Theorem publish_failure_is_contained
    (json_Marshal : ClickEvent.t -> string * option error)
    (shortCode : string) (r : Http.Request) (st : World) :
  Kafka.next_reply (eventLog st) <> Kafka.Stalls ->
  exists st' : World,
    publishClickEvent json_Marshal shortCode r st = Some st' /\
    redisClient st' = redisClient st /\
    now st' = now st /\
    goroutines st' = goroutines st /\
    (forall r' : Http.Request, fst (ServeHTTP r' st') = fst (ServeHTTP r' st)) /\
    (forall e : error,
       snd (json_Marshal (clickEvent shortCode r (now st))) = Some e ->
       logged st'
       = (logged st ++ [ ("[Redirect Service] Failed to marshal click event: " ++ Error e)%string ])%list /\
       kafkaWriter st' = kafkaWriter st /\
       eventLog st' = eventLog st) /\
    (snd (json_Marshal (clickEvent shortCode r (now st))) = None ->
     Kafka.replies (eventLog st') = tail (Kafka.replies (eventLog st)) /\
     forall (e : error) (w : Kafka.Writer) (b : Kafka.Broker),
       Kafka.WriteMessages (kafkaWriter st) (eventLog st)
         {| Kafka.Key := shortCode;
            Kafka.Value := fst (json_Marshal (clickEvent shortCode r (now st))) |}
       = Some (Some e, w, b) ->
       logged st'
       = (logged st ++ [ ("[Redirect Service] Failed to publish to Kafka: " ++ Error e)%string ])%list /\
       Kafka.partitions (eventLog st') = Kafka.partitions (eventLog st)).
Proof.
  intros Hreply. unfold publishClickEvent.
  destruct (json_Marshal (clickEvent shortCode r (now st))) as [jsonData [e |]];
    cbn [fst snd].
  - eexists. split; [reflexivity |]. cbn.
    split; [reflexivity |]. split; [reflexivity |]. split; [reflexivity |].
    split; [intros r'; apply ServeHTTP_reads; reflexivity |].
    split; [| discriminate].
    intros e' He'. inversion He'; subst. repeat split.
  - destruct (WriteMessages_returns (kafkaWriter st) (eventLog st)
                {| Kafka.Key := shortCode; Kafka.Value := jsonData |} Hreply)
      as (err & w & b & Hwrite & Hreplies & Hnothing).
    rewrite Hwrite.
    exists (log_Printf
              match err with
              | Some e => "[Redirect Service] Failed to publish to Kafka: " ++ Error e
              | None => "[Redirect Service] Published click event for '"
                        ++ shortCode ++ "' to Kafka"
              end (with_kafka w b st)).
    split; [destruct err; reflexivity |]. cbn.
    split; [reflexivity |]. split; [reflexivity |]. split; [reflexivity |].
    split; [intros r'; apply ServeHTTP_reads; reflexivity |].
    split; [discriminate |].
    intros _. split; [exact Hreplies |].
    intros e w0 b0 Heq. inversion Heq; subst.
    split; [reflexivity |]. apply Hnothing. discriminate.
Qed.

Lemma publish_failure_is_contained_witness :
  exists st' : World,
    publishClickEvent Sample.Marshal "abc123" (GET "abc123" Sample.browser Sample.peer)
      (Sample.world (Sample.store Sample.abc123 [])
         (Sample.topic 1 [ Kafka.Unreachable "dial tcp: connection refused" ]))
    = Some st' /\
    logged st'
    = [ "[Redirect Service] Failed to publish to Kafka: dial tcp: connection refused" ] /\
    Kafka.partitions (eventLog st') = [ [] ].
Proof.
  destruct (publish_failure_is_contained Sample.Marshal "abc123"
              (GET "abc123" Sample.browser Sample.peer)
              (Sample.world (Sample.store Sample.abc123 [])
                 (Sample.topic 1 [ Kafka.Unreachable "dial tcp: connection refused" ])))
    as (st' & Hpublish & _ & _ & _ & _ & _ & Hwrite).
  - discriminate.
  - exists st'. split; [exact Hpublish |].
    destruct (Hwrite eq_refl) as [_ Hreturned].
    exact (Hreturned (errors_New "dial tcp: connection refused") _ _ eq_refl).
Defined.

(** C5 as stated fails for a write that the log turns down: the writer of
    initKafka is asynchronous, its call returns no error, and the
    publisher logs the event as published although nothing was written. *)
Lemma rejected_write_is_not_logged :
  Kafka.Async (initKafka ∅) = true /\
  option_map logged
    (Sample.click "abc123"
       (Sample.world (Sample.store Sample.abc123 [])
          (Sample.topic 1 [ Kafka.Rejects "Not Enough Replicas" ])))
  = Some [ "[Redirect Service] Redirecting 'abc123' to https://example.com";
           "[Redirect Service] Published click event for 'abc123' to Kafka" ] /\
  option_map Sample.keys
    (Sample.click "abc123"
       (Sample.world (Sample.store Sample.abc123 [])
          (Sample.topic 1 [ Kafka.Rejects "Not Enough Replicas" ])))
  = Some [ [] ].
Proof. vm_compute. repeat split. Qed.

(** * Further properties of the redirect service *)

(** ** The router *)







(** ** What a request does to the process *)

Lemma respondJSON_Location (w : Http.Response) (status : Z) (data : Http.JSON) :
  Http.Location (respondJSON w status data) = Http.Location w.
Proof.
  unfold respondJSON, Http.Location. cbn.
  rewrite lookup_insert_ne by discriminate. reflexivity.
Qed.


(** X4. Serving a request never touches the writer, the event log or the
    clock, and costs the store at most one command. *)
Theorem request_costs_one_command (r : Http.Request) (st : World) :
  kafkaWriter (snd (ServeHTTP r st)) = kafkaWriter st /\
  eventLog (snd (ServeHTTP r st)) = eventLog st /\
  now (snd (ServeHTTP r st)) = now st /\
  (Redis.replies (redisClient (snd (ServeHTTP r st))) = Redis.replies (redisClient st) \/
   Redis.replies (redisClient (snd (ServeHTTP r st)))
   = tail (Redis.replies (redisClient st))).
Proof.
  unfold ServeHTTP.
  destruct (Mux.Match router r false) as [hf vars | |] eqn:Hmatch;
    [| cbn; auto | cbn; auto].
  destruct (Match_router_handler r hf vars Hmatch) as [-> | ->].
  - unfold healthHandler, health, Redis.Ping.
    destruct (Redis.next_reply (redisClient st)); cbn; auto.
  - unfold redirectHandler, resolve, Redis.Get.
    destruct (Redis.next_reply (redisClient st));
      [destruct (Redis.db (redisClient st) !! _) |]; cbn; auto.
Qed.

(** ** What a publication does to the log *)

Lemma least_in_range (counters : list Z) (minIndex : nat) (minBytes : Z) (i : nat) :
  (minIndex < i)%nat ->
  (Kafka.least minIndex minBytes i counters < i + length counters)%nat.
Proof.
  revert minIndex minBytes i.
  induction counters as [| c rest IH]; intros minIndex minBytes i Hlt; cbn.
  - lia.
  - destruct (c <? minBytes)%Z.
    + specialize (IH i c (S i)). lia.
    + specialize (IH minIndex minBytes (S i)). lia.
Qed.

Lemma Balance_in_range (lb : Kafka.LeastBytes) (msg : Kafka.Message)
    (numPartitions : nat) :
  (0 < numPartitions)%nat ->
  (fst (Kafka.Balance lb msg numPartitions) < numPartitions)%nat.
Proof.
  intros Hpos. unfold Kafka.Balance.
  assert (exists counters : list Z,
             (if (length lb =? numPartitions)%nat then lb
              else Kafka.makeCounters numPartitions) = counters /\
             length counters = numPartitions) as (counters & -> & Hlen).
  { destruct (length lb =? numPartitions)%nat eqn:Heq.
    - apply Nat.eqb_eq in Heq. eauto.
    - eexists. split; [reflexivity |]. apply repeat_length. }
  destruct counters as [| c0 rest]; cbn in *; [lia |].
  pose proof (least_in_range rest 0 c0 1). lia.
Qed.

Lemma messages_alter (p : nat) (msg : Kafka.Message) (logs : list (list Kafka.Message)) :
  (p < length logs)%nat ->
  length (concat (alter (fun log => (log ++ [ msg ])%list) p logs))
  = S (length (concat logs)).
Proof.
  revert p. induction logs as [| log logs IH]; intros p Hp; cbn in *.
  - lia.
  - destruct p as [| p]; cbn.
    + rewrite !length_app. cbn. lia.
    + rewrite !length_app, (IH p) by lia. lia.
Qed.

Lemma messages_alter_le (p : nat) (msg : Kafka.Message)
    (logs : list (list Kafka.Message)) :
  (length (concat (alter (fun log => (log ++ [ msg ])%list) p logs))
   <= S (length (concat logs)))%nat.
Proof.
  revert p. induction logs as [| log logs IH]; intros p.
  - destruct p; cbn; lia.
  - destruct p as [| p]; cbn.
    + rewrite !length_app. cbn. lia.
    + rewrite !length_app. specialize (IH p). lia.
Qed.

Lemma publishClickEvent_accepted
    (json_Marshal : ClickEvent.t -> string * option error)
    (shortCode : string) (r : Http.Request) (st : World) :
  snd (json_Marshal (clickEvent shortCode r (now st))) = None ->
  Kafka.next_reply (eventLog st) = Kafka.Accepts ->
  Kafka.partitions (eventLog st) <> [] ->
  exists (st' : World) (p : nat) (log : list Kafka.Message),
    publishClickEvent json_Marshal shortCode r st = Some st' /\
    Kafka.partitions (eventLog st) !! p = Some log /\
    Kafka.partitions (eventLog st')
    = <[ p := (log ++ [ {| Kafka.Key := shortCode;
                           Kafka.Value := fst (json_Marshal
                                                 (clickEvent shortCode r (now st))) |} ])%list ]>
        (Kafka.partitions (eventLog st)) /\
    messages (eventLog st') = S (messages (eventLog st)) /\
    Kafka.replies (eventLog st') = tail (Kafka.replies (eventLog st)) /\
    logged st'
    = (logged st ++ [ ("[Redirect Service] Published click event for '"
                       ++ shortCode ++ "' to Kafka")%string ])%list /\
    redisClient st' = redisClient st /\
    now st' = now st /\
    goroutines st' = goroutines st.
Proof.
  intros Hmarshal Haccepts Hparts. unfold publishClickEvent, Kafka.WriteMessages.
  destruct (json_Marshal (clickEvent shortCode r (now st))) as [jsonData err].
  cbn in Hmarshal. subst err. cbn [fst]. rewrite Haccepts.
  destruct (Kafka.partitions (eventLog st)) as [| log0 logs] eqn:Hlogs; [congruence |].
  pose proof (Balance_in_range (Kafka.Balancer (kafkaWriter st))
                {| Kafka.Key := shortCode; Kafka.Value := jsonData |}
                (length (log0 :: logs)) ltac:(cbn; lia)) as Hrange.
  destruct (Kafka.Balance _ _ _) as [p lb]. cbn [fst] in Hrange.
  destruct (lookup_lt_is_Some_2 (log0 :: logs) p Hrange) as [log Hlog].
  eexists _, p, log. split; [reflexivity |]. split; [exact Hlog |].
  unfold messages, Kafka.append, Kafka.served. cbn. rewrite Hlogs. split.
  - apply list_eq. intros i. destruct (decide (p = i)) as [<- |].
    + rewrite list_lookup_alter_eq, list_lookup_insert_eq by exact Hrange.
      rewrite Hlog. reflexivity.
    + rewrite list_lookup_alter_ne, list_lookup_insert_ne by assumption. reflexivity.
  - split; [apply messages_alter; exact Hrange |].
    repeat split.
Qed.


(** X5. A publication whose event serializes, on a log that accepts and
    has a partition, returns having added exactly one message to the log:
    key the short code, value the serialized event, at the end of an
    existing partition. It has used one reply of the log and written the
    line of success; store, clock and goroutines are as before. *)
Theorem accepted_publication_is_recorded
    (json_Marshal : ClickEvent.t -> string * option error)
    (shortCode : string) (r : Http.Request) (st : World) :
  snd (json_Marshal (clickEvent shortCode r (now st))) = None ->
  Kafka.next_reply (eventLog st) = Kafka.Accepts ->
  Kafka.partitions (eventLog st) <> [] ->
  exists (st' : World) (p : nat) (log : list Kafka.Message),
    publishClickEvent json_Marshal shortCode r st = Some st' /\
    Kafka.partitions (eventLog st) !! p = Some log /\
    Kafka.partitions (eventLog st')
    = <[ p := (log ++ [ {| Kafka.Key := shortCode;
                           Kafka.Value := fst (json_Marshal
                                                 (clickEvent shortCode r (now st))) |} ])%list ]>
        (Kafka.partitions (eventLog st)) /\
    messages (eventLog st') = S (messages (eventLog st)) /\
    Kafka.replies (eventLog st') = tail (Kafka.replies (eventLog st)) /\
    logged st'
    = (logged st ++ [ ("[Redirect Service] Published click event for '"
                       ++ shortCode ++ "' to Kafka")%string ])%list /\
    redisClient st' = redisClient st /\
    now st' = now st /\
    goroutines st' = goroutines st.
Proof. apply publishClickEvent_accepted. Qed.

Lemma accepted_publication_is_recorded_witness :
  exists st' : World,
    publishClickEvent Sample.Marshal "abc123" (GET "abc123" Sample.browser Sample.peer)
      (Sample.world (Sample.store Sample.abc123 []) (Sample.topic 2 []))
    = Some st' /\
    messages (eventLog st') = 1%nat.
Proof.
  destruct (accepted_publication_is_recorded Sample.Marshal "abc123"
              (GET "abc123" Sample.browser Sample.peer)
              (Sample.world (Sample.store Sample.abc123 []) (Sample.topic 2 [])))
    as (st' & p & log & Hpublish & _ & _ & Hmessages & _).
  - reflexivity.
  - reflexivity.
  - discriminate.
  - exists st'. split; [exact Hpublish | exact Hmessages].
Defined.

Lemma publishClickEvent_partitions
    (json_Marshal : ClickEvent.t -> string * option error)
    (shortCode : string) (r : Http.Request) (st st' : World) :
  publishClickEvent json_Marshal shortCode r st = Some st' ->
  Kafka.partitions (eventLog st') = Kafka.partitions (eventLog st) \/
  exists (value : string) (p : nat),
    Kafka.partitions (eventLog st')
    = alter (fun log => (log ++ [ {| Kafka.Key := shortCode; Kafka.Value := value |} ])%list)
        p (Kafka.partitions (eventLog st)).
Proof.
  unfold publishClickEvent.
  destruct (json_Marshal _) as [jsonData [e |]].
  - intros H. inversion H. left. reflexivity.
  - destruct (Kafka.WriteMessages _ _ _) as [[[err w] b] |] eqn:Hwrite; [| discriminate].
    intros H. apply WriteMessages_partitions in Hwrite.
    assert (eventLog st' = b) as -> by (destruct err; inversion H; reflexivity).
    destruct Hwrite as [Hsame | Happended]; [left; exact Hsame |].
    right. eauto.
Qed.

(** X6. Whatever way a publication ends, it adds at most one message to
    the log, and takes none away and moves none: every partition keeps
    the messages it had, in their order, at its head. *)
Theorem publication_adds_at_most_one
    (json_Marshal : ClickEvent.t -> string * option error)
    (shortCode : string) (r : Http.Request) (st st' : World) :
  publishClickEvent json_Marshal shortCode r st = Some st' ->
  (messages (eventLog st') <= S (messages (eventLog st)))%nat /\
  length (Kafka.partitions (eventLog st')) = length (Kafka.partitions (eventLog st)) /\
  forall (p : nat) (log : list Kafka.Message),
    Kafka.partitions (eventLog st) !! p = Some log ->
    exists suffix : list Kafka.Message,
      Kafka.partitions (eventLog st') !! p = Some (log ++ suffix)%list /\
      Forall (fun msg => Kafka.Key msg = shortCode) suffix.
Proof.
  intros Hpublish.
  destruct (publishClickEvent_partitions _ _ _ _ _ Hpublish)
    as [Hsame | (value & q & Happended)].
  - unfold messages. rewrite Hsame. split; [lia |]. split; [reflexivity |].
    intros p log Hlog. exists []. rewrite app_nil_r. split; [exact Hlog | constructor].
  - unfold messages. rewrite Happended. split; [| split].
    + apply messages_alter_le.
    + apply length_alter.
    + intros p log Hlog. destruct (decide (q = p)) as [-> | Hne].
      * eexists. rewrite list_lookup_alter_eq, Hlog. split; [reflexivity |].
        repeat constructor.
      * exists []. rewrite list_lookup_alter_ne, app_nil_r by exact Hne.
        split; [exact Hlog | constructor].
Qed.

Lemma publication_adds_at_most_one_witness :
  exists st' : World,
    publishClickEvent Sample.Marshal "abc123" (GET "abc123" Sample.browser Sample.peer)
      (Sample.world (Sample.store Sample.abc123 [])
         (Sample.topic 2 [ Kafka.Rejects "Not Enough Replicas" ]))
    = Some st' /\
    (messages (eventLog st') <= 1)%nat.
Proof.
  destruct (publishClickEvent Sample.Marshal "abc123"
              (GET "abc123" Sample.browser Sample.peer)
              (Sample.world (Sample.store Sample.abc123 [])
                 (Sample.topic 2 [ Kafka.Rejects "Not Enough Replicas" ])))
    as [st' |] eqn:Hpublish.
  - exists st'. split; [reflexivity |].
    exact (proj1 (publication_adds_at_most_one Sample.Marshal "abc123"
                    (GET "abc123" Sample.browser Sample.peer)
                    (Sample.world (Sample.store Sample.abc123 [])
                       (Sample.topic 2 [ Kafka.Rejects "Not Enough Replicas" ]))
                    st' Hpublish)).
  - vm_compute in Hpublish. discriminate Hpublish.
Defined.

(** ** What the process keeps from start-up on *)

Lemma ServeHTTP_goroutines (r : Http.Request) (st : World) :
  goroutines (snd (ServeHTTP r st)) = goroutines st \/
  exists C : string,
    goroutines (snd (ServeHTTP r st))
    = (goroutines st ++ [ go_publishClickEvent C r ])%list /\
    stored (Redis.db (redisClient st)) C.
Proof.
  unfold ServeHTTP.
  destruct (Mux.Match router r false) as [hf vars | |] eqn:Hmatch;
    [| left; reflexivity | left; reflexivity].
  destruct (Match_router_handler r hf vars Hmatch) as [-> | ->].
  - left. unfold healthHandler, health, Redis.Ping.
    destruct (Redis.next_reply (redisClient st)); reflexivity.
  - unfold redirectHandler, resolve, Redis.Get.
    destruct (Redis.next_reply (redisClient st)); [| left; reflexivity].
    destruct (Redis.db (redisClient st) !! ("url:" ++ Mux.Vars_get vars "shortCode"))
      as [D |] eqn:Hdb; [| left; reflexivity].
    right. exists (Mux.Vars_get vars "shortCode"). split; [reflexivity |].
    unfold stored. rewrite Hdb. eauto.
Qed.

Lemma ServeHTTP_eventLog (r : Http.Request) (st : World) :
  eventLog (snd (ServeHTTP r st)) = eventLog st.
Proof.
  unfold ServeHTTP.
  destruct (Mux.Match router r false) as [hf vars | |] eqn:Hmatch;
    [| reflexivity | reflexivity].
  destruct (Match_router_handler r hf vars Hmatch) as [-> | ->].
  - unfold healthHandler, health, Redis.Ping.
    destruct (Redis.next_reply (redisClient st)); reflexivity.
  - unfold redirectHandler, resolve, Redis.Get.
    destruct (Redis.next_reply (redisClient st));
      [destruct (Redis.db (redisClient st) !! _) |]; reflexivity.
Qed.

Lemma step_keeps_clicks_on_stored_codes
    (json_Marshal : ClickEvent.t -> string * option error) (st st' : World) :
  step json_Marshal st st' ->
  clicks_on_stored_codes st -> clicks_on_stored_codes st'.
Proof.
  intros Hstep [Hlog Hpool].
  pose proof (step_db json_Marshal st st' Hstep) as Hdb.
  unfold clicks_on_stored_codes. rewrite Hdb.
  destruct Hstep as [r st | i g st st' Hg Hrun | t st].
  - rewrite ServeHTTP_eventLog. split; [exact Hlog |].
    destruct (ServeHTTP_goroutines r st) as [-> | (C & -> & HC)]; [exact Hpool |].
    apply Forall_app. split; [exact Hpool |]. repeat constructor. exact HC.
  - destruct g as [shortCode r]. cbn [run] in Hrun.
    pose proof (Forall_lookup_1 _ _ _ _ Hpool Hg) as Hcode. cbn in Hcode.
    destruct (publishClickEvent_redis _ _ _ _ _ Hrun) as (_ & _ & Hpool').
    rewrite Hpool'. cbn [goroutines with_goroutines].
    split; [| apply Forall_delete; exact Hpool].
    destruct (publishClickEvent_partitions _ _ _ _ _ Hrun)
      as [-> | (value & p & ->)]; cbn [eventLog with_goroutines]; [exact Hlog |].
    apply Forall_alter; [exact Hlog |].
    intros log _ Hold. apply Forall_app. split; [exact Hold |].
    repeat constructor. exact Hcode.
  - split; assumption.
Qed.

(** X7. From a start of [main] on an empty log, whatever the process does
    afterwards (requests, publications, the clock moving), every event in
    the log and every publication in flight is for a short code that the
    store holds. *)
Theorem clicks_are_on_stored_codes
    (json_Marshal : ClickEvent.t -> string * option error)
    (env : gmap string string) (store : Redis.Client) (log : Kafka.Broker) (t : Z)
    (st0 st : World) :
  Startup.main env store log t = Startup.Serving st0 ->
  concat (Kafka.partitions log) = [] ->
  steps json_Marshal st0 st ->
  clicks_on_stored_codes st.
Proof.
  intros Hmain Hempty Hsteps.
  assert (clicks_on_stored_codes st0) as Hstart.
  { unfold Startup.main in Hmain.
    destruct (Startup.initRedis env store) as [line | c]; [discriminate |].
    inversion Hmain; subst st0. split; cbn; [| constructor].
    clear -Hempty. induction (Kafka.partitions log) as [| l ls IH]; [constructor |].
    cbn in Hempty. apply app_eq_nil in Hempty as [-> Hrest].
    constructor; [constructor | exact (IH Hrest)]. }
  clear Hmain Hempty. induction Hsteps as [st | st1 st2 st3 Hstep _ IH].
  - exact Hstart.
  - apply IH. exact (step_keeps_clicks_on_stored_codes _ _ _ Hstep Hstart).
Qed.

Lemma clicks_are_on_stored_codes_witness :
  clicks_on_stored_codes
    (snd (ServeHTTP (GET "abc123" Sample.browser Sample.peer)
            {| redisClient := Redis.served (Sample.store Sample.abc123 []);
               kafkaWriter := initKafka ∅;
               eventLog := Sample.topic 2 [];
               now := 1700000000000000000;
               logged :=
                 [ "[Redirect Service] Kafka writer initialized";
                   "[Redirect Service] Server starting on port 3002";
                   "[Redirect Service] Connected to Redis at localhost:6379";
                   "[Redirect Service] Connected to Kafka at localhost:9092, topic: url-clicks" ];
               goroutines := [] |})).
Proof.
  apply (clicks_are_on_stored_codes Sample.Marshal ∅ (Sample.store Sample.abc123 [])
           (Sample.topic 2 []) 1700000000000000000
           {| redisClient := Redis.served (Sample.store Sample.abc123 []);
              kafkaWriter := initKafka ∅;
              eventLog := Sample.topic 2 [];
              now := 1700000000000000000;
              logged :=
                [ "[Redirect Service] Kafka writer initialized";
                  "[Redirect Service] Server starting on port 3002";
                  "[Redirect Service] Connected to Redis at localhost:6379";
                  "[Redirect Service] Connected to Kafka at localhost:9092, topic: url-clicks" ];
              goroutines := [] |}).
  - reflexivity.
  - reflexivity.
  - eapply steps_step; [apply step_request | apply steps_refl].
Defined.

(** X8. [main] gets as far as serving exactly when the store answers the
    ping of initRedis; otherwise the process ends with the line of
    log.Fatalf. The event log has no part in it: the writer is set up
    without a call to the log, which is left as it was, whatever its
    state. *)
Theorem startup_depends_on_the_store_only (env : gmap string string)
    (store : Redis.Client) (log : Kafka.Broker) (t : Z) :
  match Startup.main env store log t with
  | Startup.Fatal line =>
      exists reason : string,
        Redis.next_reply store = Redis.Fails reason /\
        line = "Failed to connect to Redis: " ++ reason
  | Startup.Serving st =>
      Redis.next_reply store = Redis.Answers /\
      Redis.db (redisClient st) = Redis.db store /\
      Redis.replies (redisClient st) = tail (Redis.replies store) /\
      kafkaWriter st = initKafka env /\
      eventLog st = log /\
      goroutines st = []
  end.
Proof.
  unfold Startup.main, Startup.initRedis, Redis.Ping.
  destruct (Redis.next_reply store) as [| reason]; cbn.
  - repeat split.
  - exists reason. split; reflexivity.
Qed.

(** ** The settings of the writer *)







(** * The shortener *)

(** ** generateShortCode *)

Lemma byte_at_contains (s : string) (i : nat) (c : ascii) :
  Shortener.byte_at s i = Some c -> Strings.contains c s = true.
Proof.
  revert i. induction s as [| d rest IH]; intros i Hat; cbn in *.
  - discriminate.
  - destruct i as [| j].
    + inversion Hat; subst. rewrite Ascii.eqb_refl. reflexivity.
    + rewrite (IH j Hat). apply orb_true_r.
Qed.

Lemma byte_at_in_range (s : string) (i : nat) :
  (i < String.length s)%nat -> is_Some (Shortener.byte_at s i).
Proof.
  revert i. induction s as [| d rest IH]; intros i Hlt; cbn in *.
  - lia.
  - destruct i as [| j]; [eauto |]. apply IH. lia.
Qed.

Lemma generate_shape (n : nat) (draws : list nat) (code : string) :
  Shortener.generate n draws = Some code ->
  String.length code = n /\ Strings.all_bytes Shortener.in_charset code = true.
Proof.
  revert draws code. induction n as [| m IH]; intros draws code Hgen;
    cbn [Shortener.generate] in Hgen.
  - inversion Hgen. split; reflexivity.
  - destruct draws as [| num rest]; [discriminate |].
    destruct (Shortener.byte_at Shortener.charset num) as [c |] eqn:Hc; [| discriminate].
    destruct (Shortener.generate m rest) as [code' |] eqn:Hrest; [| discriminate].
    inversion Hgen; subst. destruct (IH rest code' Hrest) as [Hlen Hall].
    cbn [String.length Strings.all_bytes]. rewrite Hlen, Hall.
    split; [reflexivity |].
    unfold Shortener.in_charset. rewrite (byte_at_contains _ _ _ Hc). reflexivity.
Qed.

Lemma generate_returns (n : nat) (draws : list nat) :
  (n <= length draws)%nat ->
  Forall (fun num => (num < String.length Shortener.charset)%nat) (take n draws) ->
  is_Some (Shortener.generate n draws).
Proof.
  revert draws. induction n as [| m IH]; intros draws Hlen Hdraws;
    cbn [Shortener.generate].
  - eauto.
  - destruct draws as [| num rest]; cbn [length take] in *; [lia |].
    inversion Hdraws as [| ? ? Hnum Hrest]; subst.
    destruct (byte_at_in_range _ _ Hnum) as [c ->].
    destruct (IH rest ltac:(lia) Hrest) as [code ->]. eauto.
Qed.

Lemma generate_gives_out (n : nat) (draws : list nat) :
  (length draws < n)%nat -> Shortener.generate n draws = None.
Proof.
  revert draws. induction n as [| m IH]; intros draws Hlen;
    cbn [Shortener.generate].
  - lia.
  - destruct draws as [| num rest]; [reflexivity |]. cbn [length] in Hlen.
    rewrite (IH rest) by lia.
    destruct (Shortener.byte_at Shortener.charset num); reflexivity.
Qed.

(** X10. A code that generateShortCode returns has six bytes, all of the
    charset. The function returns a code when the random source gives six
    numbers below the length of the charset, and none when the source
    gives out before the sixth. *)
Theorem generateShortCode_codes (draws : list nat) :
  (forall code : string,
     Shortener.generateShortCode draws = Some code ->
     String.length code = 6%nat /\ Shortener.is_code code = true) /\
  ((6 <= length draws)%nat ->
   Forall (fun num => (num < 62)%nat) (take 6 draws) ->
   is_Some (Shortener.generateShortCode draws)) /\
  ((length draws < 6)%nat -> Shortener.generateShortCode draws = None).
Proof.
  unfold Shortener.generateShortCode, Shortener.codeLength. split; [| split].
  - intros code Hgen. destruct (generate_shape _ _ _ Hgen) as [Hlen Hall].
    split; [exact Hlen |]. unfold Shortener.is_code. rewrite Hall.
    destruct code; [discriminate | reflexivity].
  - intros Hlen Hdraws. apply generate_returns; assumption.
  - apply generate_gives_out.
Qed.

Lemma generateShortCode_codes_witness :
  String.length "q7Xk2m" = 6%nat /\ Shortener.is_code "q7Xk2m" = true.
Proof.
  apply (generateShortCode_codes SampleShortener.q7Xk2m_draws). reflexivity.
Defined.

Lemma byte_at_charset_index (num : nat) (c : ascii) :
  Shortener.byte_at Shortener.charset num = Some c ->
  ShortenerService.index c Shortener.charset = Some num.
Proof.
  intros Hat.
  do 62 (destruct num as [| num]; [inversion Hat; reflexivity |]).
  discriminate.
Qed.

Lemma generate_injective (n : nat) (draws draws' : list nat) (code : string) :
  Shortener.generate n draws = Some code ->
  Shortener.generate n draws' = Some code ->
  take n draws = take n draws'.
Proof.
  revert draws draws' code.
  induction n as [| m IH]; intros draws draws' code Hgen Hgen';
    cbn [Shortener.generate] in *.
  - reflexivity.
  - destruct draws as [| num rest]; [discriminate |].
    destruct draws' as [| num' rest']; [discriminate |].
    destruct (Shortener.byte_at Shortener.charset num) as [c |] eqn:Hc; [| discriminate].
    destruct (Shortener.byte_at Shortener.charset num') as [c' |] eqn:Hc'; [| discriminate].
    destruct (Shortener.generate m rest) as [tl |] eqn:Hrest; [| discriminate].
    destruct (Shortener.generate m rest') as [tl' |] eqn:Hrest'; [| discriminate].
    injection Hgen as <-. injection Hgen' as Hbyte Htail. subst c' tl'.
    apply byte_at_charset_index in Hc, Hc'. rewrite Hc in Hc'.
    injection Hc' as ->.
    cbn [take]. f_equal. exact (IH _ _ _ Hrest Hrest').
Qed.

(** X11. Two runs of generateShortCode return the same code only when
    their first six draws are the same: no two bytes of the charset are
    equal, so that every sequence of draws has a code of its own. *)
Theorem generateShortCode_injective (draws draws' : list nat) (code : string) :
  Shortener.generateShortCode draws = Some code ->
  Shortener.generateShortCode draws' = Some code ->
  take 6 draws = take 6 draws'.
Proof. apply generate_injective. Qed.

Lemma generateShortCode_injective_witness :
  take 6 (SampleShortener.q7Xk2m_draws ++ [ 3%nat ]) = take 6 SampleShortener.q7Xk2m_draws.
Proof.
  apply (generateShortCode_injective _ _ "q7Xk2m"); reflexivity.
Defined.

(** ** shortenHandler *)



Section ShortenHandler.

Variable json_Decode : string -> option ShortenerService.ShortenRequest.

(** X12. A body that does not decode, and a request whose url is empty,
    are answered with 400 before anything else is done: the store is not
    asked, no number is drawn and nothing is logged. *)
Theorem shorten_refuses_bad_requests (rounds : nat) (w : Http.Response) (body : string)
    (st : ShortenerService.World) :
  (json_Decode body = None ->
   ShortenerService.shortenHandler json_Decode rounds w body st
   = Some (ShortenerService.respondError w ShortenerService.StatusBadRequest
             "Invalid request body", st)) /\
  (json_Decode body = Some {| ShortenerService.URL := "" |} ->
   ShortenerService.shortenHandler json_Decode rounds w body st
   = Some (ShortenerService.respondError w ShortenerService.StatusBadRequest
             "URL is required", st)).
Proof.
  unfold ShortenerService.shortenHandler.
  split; intros ->; reflexivity.
Qed.



End ShortenHandler.

Lemma shorten_refuses_bad_requests_witness :
  ShortenerService.shortenHandler SampleShortener.Decode 3 Http.NewResponseWriter "{"
    (SampleShortener.world Sample.abc123 SampleShortener.q7Xk2m_draws)
  = Some (ShortenerService.respondError Http.NewResponseWriter
            ShortenerService.StatusBadRequest "Invalid request body",
          SampleShortener.world Sample.abc123 SampleShortener.q7Xk2m_draws) /\
  ShortenerService.shortenHandler SampleShortener.Decode 3 Http.NewResponseWriter
    (SampleShortener.body "")
    (SampleShortener.world Sample.abc123 SampleShortener.q7Xk2m_draws)
  = Some (ShortenerService.respondError Http.NewResponseWriter
            ShortenerService.StatusBadRequest "URL is required",
          SampleShortener.world Sample.abc123 SampleShortener.q7Xk2m_draws).
Proof.
  split.
  - apply (proj1 (shorten_refuses_bad_requests SampleShortener.Decode 3
                    Http.NewResponseWriter "{"
                    (SampleShortener.world Sample.abc123 SampleShortener.q7Xk2m_draws))).
    reflexivity.
  - apply (proj2 (shorten_refuses_bad_requests SampleShortener.Decode 3
                    Http.NewResponseWriter (SampleShortener.body "")
                    (SampleShortener.world Sample.abc123 SampleShortener.q7Xk2m_draws))).
    reflexivity.
Defined.



(** X15. The error of a new draw inside the search is dropped. When the
    first code is taken and the random source then gives out, the search
    goes on with the empty code: if the store holds nothing under "url:",
    the url is stored there and the answer is a 201 that names the empty
    short code, for which the redirect service has no route. *)
Theorem shorten_stores_under_the_empty_code
    (json_Decode : string -> option ShortenerService.ShortenRequest)
    (rounds : nat) (w : Http.Response) (body url C D : string)
    (st : ShortenerService.World) :
  json_Decode body = Some {| ShortenerService.URL := url |} ->
  url <> "" ->
  Shortener.generateShortCode (ShortenerService.rand st) = Some C ->
  Redis.db (ShortenerService.redisClient st) !! ("url:" ++ C) = Some D ->
  (length (drop 6 (ShortenerService.rand st)) < 6)%nat ->
  Redis.db (ShortenerService.redisClient st) !! "url:" = None ->
  Redis.replies (ShortenerService.redisClient st) = [] ->
  exists (resp : Http.Response) (st' : ShortenerService.World),
    ShortenerService.shortenHandler json_Decode (S (S rounds)) w body st
    = Some (resp, st') /\
    Http.StatusCode resp = ShortenerService.StatusCreated /\
    Http.RespBody resp
    = Http.JSONBody [ ("shortCode", Http.JString "");
                      ("shortUrl", Http.JString "http://localhost:3002/");
                      ("originalUrl", Http.JString url) ] /\
    Redis.db (ShortenerService.redisClient st')
    = <[ "url:" := url ]> (Redis.db (ShortenerService.redisClient st)) /\
    forall (rst : World) (h : gmap string (list string)) (peer : string),
      Http.StatusCode (fst (ServeHTTP (GET "" h peer) rst)) = Http.StatusNotFound.
Proof.
  intros Hdecode Hurl Hgen Htaken Hout Hfree Hreplies.
  unfold ShortenerService.shortenHandler. rewrite Hdecode.
  cbn [ShortenerService.URL].
  destruct url as [| c url']; [congruence |]. cbn [Strings.nonempty negb].
  unfold ShortenerService.generateShortCode at 1. rewrite Hgen.
  cbn [ShortenerService.unique].
  unfold ShortenerService.Exists at 1. unfold Redis.next_reply at 1.
  cbn [ShortenerService.redisClient ShortenerService.with_rand].
  rewrite Hreplies, Htaken. cbn [Z.eqb].
  unfold ShortenerService.generateShortCode.
  cbn [ShortenerService.rand ShortenerService.with_rand ShortenerService.with_redis].
  unfold Shortener.codeLength at 1.
  assert (Shortener.generateShortCode (drop 6 (ShortenerService.rand st)) = None)
    as Hnone by (apply generate_gives_out; exact Hout).
  rewrite Hnone.
  unfold ShortenerService.Exists, ShortenerService.Set_, Redis.next_reply.
  cbn. rewrite !Hreplies. cbn. change ("url:" +:+ "") with "url:". rewrite Hfree. cbn.
  rewrite !Hreplies. cbn.
  eexists _, _. split; [reflexivity |]. split; [reflexivity |].
  split; [reflexivity |]. split; [rewrite ?Hreplies; reflexivity |].
  intros rst h peer. reflexivity.
Qed.

Lemma shorten_stores_under_the_empty_code_witness :
  exists (resp : Http.Response) (st' : ShortenerService.World),
    ShortenerService.shortenHandler SampleShortener.Decode 2 Http.NewResponseWriter
      (SampleShortener.body "https://example.org/docs")
      (SampleShortener.world Sample.abc123 SampleShortener.abc123_draws)
    = Some (resp, st') /\
    Http.StatusCode resp = ShortenerService.StatusCreated /\
    Redis.db (ShortenerService.redisClient st')
    = <[ "url:" := "https://example.org/docs" ]> Sample.abc123.
Proof.
  destruct (shorten_stores_under_the_empty_code SampleShortener.Decode 0
              Http.NewResponseWriter (SampleShortener.body "https://example.org/docs")
              "https://example.org/docs" "abc123" "https://example.com"
              (SampleShortener.world Sample.abc123 SampleShortener.abc123_draws))
    as (resp & st' & Hshorten & Hcreated & _ & Hdb & _).
  - reflexivity.
  - discriminate.
  - reflexivity.
  - reflexivity.
  - cbn. lia.
  - reflexivity.
  - reflexivity.
  - exists resp, st'. split; [exact Hshorten |]. split; [exact Hcreated | exact Hdb].
Defined.

(** * The analytics service *)

(** ** The consumer *)

Section ConsumerProperties.

Variable json_Unmarshal : string -> error + ClickEvent.t.

Lemma consumeOne_reader (read : error + AnalyticsService.Received)
    (st : AnalyticsService.World) :
  AnalyticsService.kafkaReader (AnalyticsService.consumeOne json_Unmarshal read st)
  = AnalyticsService.kafkaReader st.
Proof.
  unfold AnalyticsService.consumeOne, Mongo.InsertOne.
  destruct read as [e | msg]; [reflexivity |].
  destruct (json_Unmarshal _) as [e | event]; [reflexivity |].
  destruct (Mongo.next_reply _); reflexivity.
Qed.

(** One round with a database that answers: the decoded event, if there
    is one, is the new last document. *)
Lemma consumeOne_answered (read : error + AnalyticsService.Received)
    (st : AnalyticsService.World) :
  Mongo.replies (AnalyticsService.collection st) = [] ->
  Mongo.docs (AnalyticsService.collection
                (AnalyticsService.consumeOne json_Unmarshal read st))
  = (Mongo.docs (AnalyticsService.collection st)
     ++ (Mongo.document <$> AnalyticsService.events json_Unmarshal [ read ]))%list /\
  Mongo.replies (AnalyticsService.collection
                   (AnalyticsService.consumeOne json_Unmarshal read st)) = [].
Proof.
  intros Hreplies.
  unfold AnalyticsService.consumeOne, Mongo.InsertOne, Mongo.next_reply.
  cbn [AnalyticsService.events].
  destruct read as [e | msg]; [cbn; rewrite app_nil_r; auto |].
  destruct (json_Unmarshal _) as [e | event]; [cbn; rewrite app_nil_r; auto |].
  rewrite !Hreplies. cbn. auto.
Qed.

Lemma rounds_answered (feed : list (error + AnalyticsService.Received))
    (st : AnalyticsService.World) :
  Mongo.replies (AnalyticsService.collection st) = [] ->
  Mongo.docs (AnalyticsService.collection (AnalyticsService.rounds json_Unmarshal feed st))
  = (Mongo.docs (AnalyticsService.collection st)
     ++ (Mongo.document <$> AnalyticsService.events json_Unmarshal feed))%list.
Proof.
  revert st. induction feed as [| read rest IH]; intros st Hreplies;
    cbn [AnalyticsService.rounds].
  - cbn. rewrite app_nil_r. reflexivity.
  - destruct (consumeOne_answered read (AnalyticsService.with_reader rest st) Hreplies)
      as [Hdocs Hreplies'].
    rewrite (IH _ Hreplies'), Hdocs. cbn [AnalyticsService.collection
                                          AnalyticsService.with_reader].
    rewrite <- app_assoc. f_equal. rewrite <- fmap_app. f_equal.
    cbn [AnalyticsService.events].
    destruct read as [e | msg]; [reflexivity |].
    destruct (json_Unmarshal _); reflexivity.
Qed.

(** X16. With a database that answers, the consumer leaves in the
    collection, after the documents that were there, exactly the
    documents of the events that the values of the received messages
    decode to, in the order of the messages: a failed read and a value
    that does not decode add nothing and do not stop the loop. *)
Theorem consumer_stores_the_decoded_events (st : AnalyticsService.World) :
  Mongo.replies (AnalyticsService.collection st) = [] ->
  Mongo.docs (AnalyticsService.collection
                (AnalyticsService.consumeKafkaMessages json_Unmarshal st))
  = (Mongo.docs (AnalyticsService.collection st)
     ++ (Mongo.document
           <$> AnalyticsService.events json_Unmarshal (AnalyticsService.kafkaReader st)))%list.
Proof.
  intros Hreplies. unfold AnalyticsService.consumeKafkaMessages.
  rewrite rounds_answered by exact Hreplies. reflexivity.
Qed.

Lemma consumeOne_docs (read : error + AnalyticsService.Received)
    (st : AnalyticsService.World) :
  exists added : list ClickEvent.t,
    Mongo.docs (AnalyticsService.collection
                  (AnalyticsService.consumeOne json_Unmarshal read st))
    = (Mongo.docs (AnalyticsService.collection st) ++ added)%list /\
    added `sublist_of` Mongo.document <$> AnalyticsService.events json_Unmarshal [ read ].
Proof.
  unfold AnalyticsService.consumeOne, Mongo.InsertOne.
  cbn [AnalyticsService.events].
  destruct read as [e | msg];
    [exists []; cbn; rewrite app_nil_r; split; [reflexivity | constructor] |].
  destruct (json_Unmarshal _) as [e | event];
    [exists []; cbn; rewrite app_nil_r; split; [reflexivity | constructor] |].
  destruct (Mongo.next_reply _); cbn.
  - exists [ Mongo.document event ]. split; [reflexivity | reflexivity].
  - exists []. rewrite app_nil_r. split; [reflexivity |]. apply sublist_nil_l.
Qed.

Lemma events_app (feed feed' : list (error + AnalyticsService.Received)) :
  AnalyticsService.events json_Unmarshal (feed ++ feed')
  = (AnalyticsService.events json_Unmarshal feed
     ++ AnalyticsService.events json_Unmarshal feed')%list.
Proof.
  induction feed as [| read rest IH]; cbn [app AnalyticsService.events].
  - reflexivity.
  - destruct read as [e | msg]; [exact IH |].
    destruct (json_Unmarshal _); [exact IH |]. cbn. rewrite IH. reflexivity.
Qed.

Lemma rounds_docs (feed : list (error + AnalyticsService.Received))
    (st : AnalyticsService.World) :
  exists added : list ClickEvent.t,
    Mongo.docs (AnalyticsService.collection (AnalyticsService.rounds json_Unmarshal feed st))
    = (Mongo.docs (AnalyticsService.collection st) ++ added)%list /\
    added `sublist_of` Mongo.document <$> AnalyticsService.events json_Unmarshal feed.
Proof.
  revert st. induction feed as [| read rest IH]; intros st;
    cbn [AnalyticsService.rounds].
  - exists []. cbn. rewrite app_nil_r. split; [reflexivity | constructor].
  - destruct (consumeOne_docs read (AnalyticsService.with_reader rest st))
      as (added1 & Hdocs1 & Hsub1).
    destruct (IH (AnalyticsService.consumeOne json_Unmarshal read
                    (AnalyticsService.with_reader rest st)))
      as (added2 & Hdocs2 & Hsub2).
    exists (added1 ++ added2)%list. split.
    + rewrite Hdocs2, Hdocs1. cbn. rewrite app_assoc. reflexivity.
    + change (read :: rest) with ([ read ] ++ rest)%list.
      rewrite events_app, fmap_app. apply sublist_app; assumption.
Qed.

(** X17. However the database answers, the consumer takes no document
    away and stores no event twice: what it adds to the collection is a
    selection, in their order, of the documents of the events that the
    received messages decode to. Once the loop waits for the next message, none of those
    received is left to be read again. *)
Theorem consumer_stores_at_most_once (st : AnalyticsService.World) :
  (exists added : list ClickEvent.t,
     Mongo.docs (AnalyticsService.collection
                   (AnalyticsService.consumeKafkaMessages json_Unmarshal st))
     = (Mongo.docs (AnalyticsService.collection st) ++ added)%list /\
     added `sublist_of`
       Mongo.document
         <$> AnalyticsService.events json_Unmarshal (AnalyticsService.kafkaReader st)) /\
  AnalyticsService.kafkaReader (AnalyticsService.consumeKafkaMessages json_Unmarshal st)
  = [].
Proof.
  unfold AnalyticsService.consumeKafkaMessages. split.
  - apply (rounds_docs (AnalyticsService.kafkaReader st)
             (AnalyticsService.log_Printf
                "[Analytics Service] Starting Kafka consumer..." st)).
  - generalize (AnalyticsService.log_Printf
                  "[Analytics Service] Starting Kafka consumer..." st).
    induction (AnalyticsService.kafkaReader st) as [| read rest IH]; intros st0;
      cbn [AnalyticsService.rounds]; [reflexivity | apply IH].
Qed.

End ConsumerProperties.

Lemma consumer_stores_the_decoded_events_witness :
  Mongo.docs (AnalyticsService.collection
                (AnalyticsService.consumeKafkaMessages SampleAnalytics.Unmarshal
                   (SampleAnalytics.world [] [] SampleAnalytics.feed)))
  = [ SampleAnalytics.click "abc123" 1700000000000000000;
      SampleAnalytics.click "q7Xk2m" 1700000001000000000;
      SampleAnalytics.click "abc123" 1700000002000000000 ].
Proof.
  apply (consumer_stores_the_decoded_events SampleAnalytics.Unmarshal
           (SampleAnalytics.world [] [] SampleAnalytics.feed)).
  reflexivity.
Defined.

(** ** The counts *)

Lemma latest_none (ds : list ClickEvent.t) : Mongo.latest ds = None -> ds = [].
Proof.
  destruct ds as [| d rest]; [reflexivity |]. cbn.
  destruct (Mongo.latest rest); [destruct (_ <? _)%Z |]; discriminate.
Qed.

Lemma latest_greatest (ds : list ClickEvent.t) (doc : ClickEvent.t) :
  Mongo.latest ds = Some doc ->
  doc ∈ ds /\
  Forall (fun d => (ClickEvent.Timestamp d <= ClickEvent.Timestamp doc)%Z) ds.
Proof.
  revert doc. induction ds as [| d rest IH]; intros doc Hlatest; cbn in Hlatest.
  - discriminate.
  - destruct (Mongo.latest rest) as [doc' |] eqn:Hrest.
    + destruct (IH doc' eq_refl) as [Hin Hall].
      destruct (Z.ltb_spec (ClickEvent.Timestamp d) (ClickEvent.Timestamp doc'));
        inversion Hlatest; subst.
      * split; [right; exact Hin |]. constructor; [lia | exact Hall].
      * split; [left |]. constructor; [lia |].
        eapply Forall_impl; [exact Hall |]. cbn. intros; lia.
    + inversion Hlatest; subst. apply latest_none in Hrest. subst rest.
      split; [left |]. repeat constructor. lia.
Qed.

(** X18. statsHandler answers 500 only when the count fails. Otherwise
    the answer is 200 with the number of documents of the short code and,
    as last click, the greatest timestamp among them; the last click is
    missing when the code has no document or the second query fails. A
    code without clicks is answered with 200 and a count of 0. The
    collection keeps its documents. *)
Theorem stats_of_a_code (vars : Mux.Vars) (st : AnalyticsService.World) :
  Mongo.docs (AnalyticsService.collection (snd (AnalyticsService.statsHandler vars st)))
  = Mongo.docs (AnalyticsService.collection st) /\
  (forall reason : string,
     Mongo.next_reply (AnalyticsService.collection st) = Mongo.Fails reason ->
     fst (AnalyticsService.statsHandler vars st)
     = AnalyticsService.respondError Http.StatusInternalServerError
         "Failed to get statistics") /\
  (Mongo.next_reply (AnalyticsService.collection st) = Mongo.Answers ->
   exists last : option Z,
     fst (AnalyticsService.statsHandler vars st)
     = AnalyticsService.respondJSON Http.StatusOK
         (AnalyticsService.Stats
            {| AnalyticsService.ShortCode := Mux.Vars_get vars "shortCode";
               AnalyticsService.TotalClicks :=
                 Z.of_nat (length (Mongo.matching (Mux.Vars_get vars "shortCode")
                                     (Mongo.docs (AnalyticsService.collection st))));
               AnalyticsService.LastClick := last |}) /\
     match last with
     | Some t =>
         (exists doc : ClickEvent.t,
            doc ∈ Mongo.matching (Mux.Vars_get vars "shortCode")
                    (Mongo.docs (AnalyticsService.collection st)) /\
            ClickEvent.Timestamp doc = t) /\
         Forall (fun d => (ClickEvent.Timestamp d <= t)%Z)
                (Mongo.matching (Mux.Vars_get vars "shortCode")
                   (Mongo.docs (AnalyticsService.collection st)))
     | None =>
         Mongo.matching (Mux.Vars_get vars "shortCode")
           (Mongo.docs (AnalyticsService.collection st)) = [] \/
         exists reason : string,
           Mongo.next_reply (Mongo.served (AnalyticsService.collection st))
           = Mongo.Fails reason
     end).
Proof.
  unfold AnalyticsService.statsHandler, Mongo.CountDocuments, Mongo.FindOne_latest.
  destruct (Mongo.next_reply (AnalyticsService.collection st)) as [| reason0] eqn:Hfirst.
  - destruct (Mongo.next_reply (Mongo.served (AnalyticsService.collection st)))
      as [| reason1] eqn:Hsecond.
    + cbn [Mongo.docs Mongo.served].
      destruct (Mongo.latest _) as [doc |] eqn:Hlatest; cbn.
      * split; [reflexivity |]. split; [discriminate |]. intros _.
        exists (Some (ClickEvent.Timestamp doc)). split; [reflexivity |].
        destruct (latest_greatest _ _ Hlatest) as [Hin Hall]. eauto.
      * split; [reflexivity |]. split; [discriminate |]. intros _.
        exists None. split; [reflexivity |]. left. exact (latest_none _ Hlatest).
    + cbn. split; [reflexivity |]. split; [discriminate |]. intros _.
      exists None. split; [reflexivity |]. right. eauto.
  - cbn. split; [reflexivity |]. split; [| discriminate].
    intros reason _. reflexivity.
Qed.

Lemma stats_of_a_code_witness :
  fst (AnalyticsService.statsHandler [ ("shortCode", "abc123") ]
         (SampleAnalytics.world [] [ Mongo.Fails "server selection timeout" ] []))
  = AnalyticsService.respondError Http.StatusInternalServerError
      "Failed to get statistics" /\
  exists last : option Z,
    fst (AnalyticsService.statsHandler [ ("shortCode", "doesnotexist") ]
           (SampleAnalytics.world [ SampleAnalytics.click "abc123" 1700000000000000000 ]
              [] []))
    = AnalyticsService.respondJSON Http.StatusOK
        (AnalyticsService.Stats
           {| AnalyticsService.ShortCode := "doesnotexist";
              AnalyticsService.TotalClicks := 0;
              AnalyticsService.LastClick := last |}).
Proof.
  split.
  - apply (proj1 (proj2 (stats_of_a_code [ ("shortCode", "abc123") ]
                           (SampleAnalytics.world []
                              [ Mongo.Fails "server selection timeout" ] [])))
             "server selection timeout").
    reflexivity.
  - destruct (proj2 (proj2 (stats_of_a_code [ ("shortCode", "doesnotexist") ]
                              (SampleAnalytics.world
                                 [ SampleAnalytics.click "abc123" 1700000000000000000 ]
                                 [] [])))
                eq_refl) as (last & Hresp & _).
    exists last. exact Hresp.
Defined.

Lemma rounds_replies (json_Unmarshal : string -> error + ClickEvent.t)
    (feed : list (error + AnalyticsService.Received)) (st : AnalyticsService.World) :
  Mongo.replies (AnalyticsService.collection st) = [] ->
  Mongo.replies (AnalyticsService.collection
                   (AnalyticsService.rounds json_Unmarshal feed st)) = [].
Proof.
  revert st. induction feed as [| read rest IH]; intros st Hreplies;
    cbn [AnalyticsService.rounds]; [exact Hreplies |].
  apply IH.
  exact (proj2 (consumeOne_answered json_Unmarshal read
                  (AnalyticsService.with_reader rest st) Hreplies)).
Qed.

Lemma matching_app (shortCode : string) (ds ds' : list ClickEvent.t) :
  Mongo.matching shortCode (ds ++ ds')
  = (Mongo.matching shortCode ds ++ Mongo.matching shortCode ds')%list.
Proof. apply filter_app. Qed.

(** Writing an event into a document keeps its short code. *)
Lemma matching_document (shortCode : string) (es : list ClickEvent.t) :
  length (Mongo.matching shortCode (Mongo.document <$> es))
  = length (Mongo.matching shortCode es).
Proof.
  unfold Mongo.matching. induction es as [| e rest IH]; [reflexivity |].
  rewrite fmap_cons.
  destruct (decide (ClickEvent.ShortCode e = shortCode)) as [Heq | Hne].
  - rewrite !filter_cons_True by exact Heq. cbn [length]. rewrite IH. reflexivity.
  - rewrite !filter_cons_False by exact Hne. exact IH.
Qed.

Lemma statsHandler_answered (vars : Mux.Vars) (st : AnalyticsService.World) :
  Mongo.replies (AnalyticsService.collection st) = [] ->
  fst (AnalyticsService.statsHandler vars st)
  = AnalyticsService.respondJSON Http.StatusOK
      (AnalyticsService.Stats
         {| AnalyticsService.ShortCode := Mux.Vars_get vars "shortCode";
            AnalyticsService.TotalClicks :=
              Z.of_nat (length (Mongo.matching (Mux.Vars_get vars "shortCode")
                                  (Mongo.docs (AnalyticsService.collection st))));
            AnalyticsService.LastClick :=
              option_map ClickEvent.Timestamp
                (Mongo.latest (Mongo.matching (Mux.Vars_get vars "shortCode")
                                 (Mongo.docs (AnalyticsService.collection st)))) |}).
Proof.
  intros Hreplies.
  unfold AnalyticsService.statsHandler, Mongo.CountDocuments, Mongo.FindOne_latest,
    Mongo.next_reply, Mongo.served.
  cbn [Mongo.replies Mongo.docs]. rewrite !Hreplies. cbn [tail].
  destruct (Mongo.latest _); reflexivity.
Qed.

(** X19. With a database that answers, the count that statsHandler gives
    for a short code once the consumer has worked through the received
    messages is the count before plus the number of received messages
    that decode to an event of that code. *)
Theorem stats_after_consuming (json_Unmarshal : string -> error + ClickEvent.t)
    (vars : Mux.Vars) (st : AnalyticsService.World) :
  Mongo.replies (AnalyticsService.collection st) = [] ->
  exists last : option Z,
    fst (AnalyticsService.statsHandler vars
           (AnalyticsService.consumeKafkaMessages json_Unmarshal st))
    = AnalyticsService.respondJSON Http.StatusOK
        (AnalyticsService.Stats
           {| AnalyticsService.ShortCode := Mux.Vars_get vars "shortCode";
              AnalyticsService.TotalClicks :=
                (Z.of_nat (length (Mongo.matching (Mux.Vars_get vars "shortCode")
                                     (Mongo.docs (AnalyticsService.collection st))))
                 + Z.of_nat (length (Mongo.matching (Mux.Vars_get vars "shortCode")
                                       (AnalyticsService.events json_Unmarshal
                                          (AnalyticsService.kafkaReader st)))))%Z;
              AnalyticsService.LastClick := last |}).
Proof.
  intros Hreplies.
  pose proof (rounds_answered json_Unmarshal (AnalyticsService.kafkaReader st)
                (AnalyticsService.log_Printf
                   "[Analytics Service] Starting Kafka consumer..." st) Hreplies)
    as Hdocs.
  pose proof (rounds_replies json_Unmarshal (AnalyticsService.kafkaReader st)
                (AnalyticsService.log_Printf
                   "[Analytics Service] Starting Kafka consumer..." st) Hreplies)
    as Hreplies'.
  unfold AnalyticsService.consumeKafkaMessages.
  rewrite (statsHandler_answered vars _ Hreplies'), Hdocs.
  cbn [AnalyticsService.collection AnalyticsService.log_Printf].
  rewrite matching_app, length_app, Nat2Z.inj_add, matching_document.
  eexists. reflexivity.
Qed.

Lemma stats_after_consuming_witness :
  exists last : option Z,
    fst (AnalyticsService.statsHandler [ ("shortCode", "abc123") ]
           (AnalyticsService.consumeKafkaMessages SampleAnalytics.Unmarshal
              (SampleAnalytics.world [ SampleAnalytics.click "abc123" 1600000000000000000 ]
                 [] SampleAnalytics.feed)))
    = AnalyticsService.respondJSON Http.StatusOK
        (AnalyticsService.Stats
           {| AnalyticsService.ShortCode := "abc123";
              AnalyticsService.TotalClicks := 3;
              AnalyticsService.LastClick := last |}).
Proof.
  apply (stats_after_consuming SampleAnalytics.Unmarshal [ ("shortCode", "abc123") ]
           (SampleAnalytics.world [ SampleAnalytics.click "abc123" 1600000000000000000 ]
              [] SampleAnalytics.feed)).
  reflexivity.
Defined.

(** ** The time of the last click *)

Lemma DateTime_cut (t : Z) :
  (Mongo.DateTime t <= t < Mongo.DateTime t + 1000000)%Z.
Proof.
  unfold Mongo.DateTime.
  pose proof (Z.div_mod t 1000000 ltac:(lia)).
  pose proof (Z.mod_pos_bound t 1000000 ltac:(lia)). lia.
Qed.

Lemma DateTime_monotone (t t' : Z) :
  (t <= t')%Z -> (Mongo.DateTime t <= Mongo.DateTime t')%Z.
Proof.
  intros Hle. unfold Mongo.DateTime.
  pose proof (Z.div_le_mono t t' 1000000 ltac:(lia) Hle). lia.
Qed.

Lemma matching_documents (shortCode : string) (es : list ClickEvent.t) :
  Mongo.matching shortCode (Mongo.document <$> es)
  = Mongo.document <$> Mongo.matching shortCode es.
Proof.
  unfold Mongo.matching. induction es as [| e rest IH]; [reflexivity |].
  rewrite fmap_cons.
  destruct (decide (ClickEvent.ShortCode e = shortCode)) as [Heq | Hne].
  - rewrite !filter_cons_True by exact Heq. rewrite fmap_cons, IH. reflexivity.
  - rewrite !filter_cons_False by exact Hne. exact IH.
Qed.

(** The latest of the documents is the document of a latest event. *)
Lemma latest_documents (es : list ClickEvent.t) (event : ClickEvent.t) :
  Mongo.latest es = Some event ->
  exists doc : ClickEvent.t,
    Mongo.latest (Mongo.document <$> es) = Some doc /\
    ClickEvent.Timestamp doc = Mongo.DateTime (ClickEvent.Timestamp event).
Proof.
  intros Hlatest. destruct (latest_greatest _ _ Hlatest) as [Hin Hall].
  destruct (Mongo.latest (Mongo.document <$> es)) as [doc |] eqn:Hdocs.
  - exists doc. split; [reflexivity |].
    destruct (latest_greatest _ _ Hdocs) as [Hin' Hall'].
    apply list_elem_of_fmap in Hin' as (e' & -> & He').
    rewrite Forall_forall in Hall, Hall'.
    pose proof (DateTime_monotone _ _ (Hall e' He')) as Hle.
    assert (Mongo.document event ∈ Mongo.document <$> es) as Hdoc
        by (apply list_elem_of_fmap; eauto).
    specialize (Hall' _ Hdoc). cbn [Mongo.document ClickEvent.Timestamp] in *. lia.
  - apply latest_none in Hdocs. apply fmap_nil_inv in Hdocs. subst es. discriminate.
Qed.

(** X24. The time of a click loses what it has below the millisecond on
    its way through the collection. With a database that answers and no
    document of the short code before, statsHandler gives after the
    consumer's work, as last click, the time of the latest event received
    for that code cut to the millisecond: never later than that time,
    and less than a millisecond before it. *)
Theorem last_click_is_cut_to_the_millisecond
    (json_Unmarshal : string -> error + ClickEvent.t)
    (vars : Mux.Vars) (st : AnalyticsService.World) (event : ClickEvent.t) :
  Mongo.replies (AnalyticsService.collection st) = [] ->
  Mongo.matching (Mux.Vars_get vars "shortCode")
    (Mongo.docs (AnalyticsService.collection st)) = [] ->
  Mongo.latest (Mongo.matching (Mux.Vars_get vars "shortCode")
                  (AnalyticsService.events json_Unmarshal (AnalyticsService.kafkaReader st)))
  = Some event ->
  exists t : Z,
    fst (AnalyticsService.statsHandler vars
           (AnalyticsService.consumeKafkaMessages json_Unmarshal st))
    = AnalyticsService.respondJSON Http.StatusOK
        (AnalyticsService.Stats
           {| AnalyticsService.ShortCode := Mux.Vars_get vars "shortCode";
              AnalyticsService.TotalClicks :=
                Z.of_nat (length (Mongo.matching (Mux.Vars_get vars "shortCode")
                                    (AnalyticsService.events json_Unmarshal
                                       (AnalyticsService.kafkaReader st))));
              AnalyticsService.LastClick := Some t |}) /\
    t = (ClickEvent.Timestamp event / 1000000 * 1000000)%Z /\
    (t <= ClickEvent.Timestamp event < t + 1000000)%Z.
Proof.
  intros Hreplies Hnone Hlatest.
  pose proof (rounds_answered json_Unmarshal (AnalyticsService.kafkaReader st)
                (AnalyticsService.log_Printf
                   "[Analytics Service] Starting Kafka consumer..." st) Hreplies)
    as Hdocs.
  pose proof (rounds_replies json_Unmarshal (AnalyticsService.kafkaReader st)
                (AnalyticsService.log_Printf
                   "[Analytics Service] Starting Kafka consumer..." st) Hreplies)
    as Hreplies'.
  unfold AnalyticsService.consumeKafkaMessages.
  rewrite (statsHandler_answered vars _ Hreplies'), Hdocs.
  cbn [AnalyticsService.collection AnalyticsService.log_Printf].
  rewrite matching_app, Hnone, app_nil_l, matching_documents.
  destruct (latest_documents _ _ Hlatest) as (doc & -> & Htime).
  rewrite length_fmap. cbn [option_map].
  exists (ClickEvent.Timestamp doc). split; [reflexivity |].
  rewrite Htime. split; [reflexivity | apply DateTime_cut].
Qed.

Lemma last_click_is_cut_to_the_millisecond_witness :
  exists t : Z,
    fst (AnalyticsService.statsHandler [ ("shortCode", "abc123") ]
           (AnalyticsService.consumeKafkaMessages SampleAnalytics.Unmarshal
              (SampleAnalytics.world [ SampleAnalytics.click "q7Xk2m" 1600000000000000000 ] []
                 [ SampleAnalytics.received "abc123" 1700000000123456789 0 ])))
    = AnalyticsService.respondJSON Http.StatusOK
        (AnalyticsService.Stats
           {| AnalyticsService.ShortCode := "abc123";
              AnalyticsService.TotalClicks := 1;
              AnalyticsService.LastClick := Some t |}) /\
    t = 1700000000123000000%Z.
Proof.
  destruct (last_click_is_cut_to_the_millisecond SampleAnalytics.Unmarshal
              [ ("shortCode", "abc123") ]
              (SampleAnalytics.world [ SampleAnalytics.click "q7Xk2m" 1600000000000000000 ] []
                 [ SampleAnalytics.received "abc123" 1700000000123456789 0 ])
              (SampleAnalytics.click "abc123" 1700000000123456789))
    as (t & Hresp & Ht & _).
  - reflexivity.
  - reflexivity.
  - vm_compute. reflexivity.
  - exists t. split; [exact Hresp | exact Ht].
Defined.

(** ** The listing of all counts *)

Lemma more_clicks_total : Total Mongo.more_clicks.
Proof. intros g1 g2. unfold Mongo.more_clicks. lia. Qed.

Lemma more_clicks_transitive : Transitive Mongo.more_clicks.
Proof. intros g1 g2 g3. unfold Mongo.more_clicks. lia. Qed.

Lemma matching_of_a_code (ds : list ClickEvent.t) (shortCode : string) :
  shortCode ∈ ClickEvent.ShortCode <$> ds ->
  exists doc : ClickEvent.t,
    Mongo.latest (Mongo.matching shortCode ds) = Some doc /\
    (1 <= Z.of_nat (length (Mongo.matching shortCode ds)))%Z.
Proof.
  intros Hin. apply list_elem_of_fmap in Hin as (d & -> & Hd).
  assert (d ∈ Mongo.matching (ClickEvent.ShortCode d) ds) as Hmatch
      by (apply list_elem_of_filter; split; [reflexivity | exact Hd]).
  destruct (Mongo.matching (ClickEvent.ShortCode d) ds) as [| d0 rest] eqn:Heq.
  - inversion Hmatch.
  - destruct (Mongo.latest (d0 :: rest)) as [doc |] eqn:Hlatest.
    + exists doc. split; [reflexivity |]. cbn [length]. lia.
    + apply latest_none in Hlatest. discriminate.
Qed.

(** The rows of the listing are those of the codes that have documents. *)
Lemma listing_rows (ds : list ClickEvent.t) (row : AnalyticsService.StatsResponse) :
  row ∈ AnalyticsService.stats_of <$> merge_sort Mongo.more_clicks (Mongo.group ds) <->
  exists shortCode : string,
    shortCode ∈ ClickEvent.ShortCode <$> ds /\
    row = {| AnalyticsService.ShortCode := shortCode;
             AnalyticsService.TotalClicks :=
               Z.of_nat (length (Mongo.matching shortCode ds));
             AnalyticsService.LastClick :=
               option_map ClickEvent.Timestamp
                 (Mongo.latest (Mongo.matching shortCode ds)) |}.
Proof.
  split.
  - intros Hrow. apply list_elem_of_fmap in Hrow as (g & -> & Hg).
    rewrite merge_sort_Permutation in Hg. unfold Mongo.group in Hg.
    apply list_elem_of_fmap in Hg as (shortCode & -> & Hin).
    rewrite elem_of_remove_dups in Hin. exists shortCode. split; [exact Hin |].
    destruct (matching_of_a_code ds shortCode Hin) as (doc & Hlatest & _).
    unfold AnalyticsService.stats_of. cbn. rewrite Hlatest. reflexivity.
  - intros (shortCode & Hin & ->).
    destruct (matching_of_a_code ds shortCode Hin) as (doc & Hlatest & _).
    apply list_elem_of_fmap.
    exists {| Mongo._id := shortCode;
              Mongo.totalClicks := Z.of_nat (length (Mongo.matching shortCode ds));
              Mongo.lastClick := from_option ClickEvent.Timestamp 0%Z
                                   (Mongo.latest (Mongo.matching shortCode ds)) |}.
    split.
    + unfold AnalyticsService.stats_of. cbn. rewrite Hlatest. reflexivity.
    + rewrite merge_sort_Permutation. unfold Mongo.group.
      apply list_elem_of_fmap. exists shortCode. split; [reflexivity |].
      rewrite elem_of_remove_dups. exact Hin.
Qed.

(** X20. allStatsHandler answers 500 when the aggregation fails, and
    otherwise 200 with one row for every short code that has documents
    and no other row, no code twice, the rows with more clicks first;
    every row carries the number of documents of its code, which is at
    least 1, and their greatest timestamp, and the total is the number of
    rows. *)
Theorem listing_of_all_codes (st : AnalyticsService.World) :
  (forall reason : string,
     Mongo.next_reply (AnalyticsService.collection st) = Mongo.Fails reason ->
     fst (AnalyticsService.allStatsHandler st)
     = AnalyticsService.respondError Http.StatusInternalServerError
         "Failed to get statistics") /\
  (Mongo.next_reply (AnalyticsService.collection st) = Mongo.Answers ->
   exists stats : list AnalyticsService.StatsResponse,
     fst (AnalyticsService.allStatsHandler st)
     = AnalyticsService.respondJSON Http.StatusOK
         (AnalyticsService.AllStats
            {| AnalyticsService.StatsList := stats;
               AnalyticsService.Total := Z.of_nat (length stats) |}) /\
     StronglySorted
       (fun row1 row2 =>
          (AnalyticsService.TotalClicks row2 <= AnalyticsService.TotalClicks row1)%Z)
       stats /\
     NoDup (AnalyticsService.ShortCode <$> stats) /\
     (forall shortCode : string,
        shortCode ∈ AnalyticsService.ShortCode <$> stats <->
        shortCode ∈ ClickEvent.ShortCode
                      <$> Mongo.docs (AnalyticsService.collection st)) /\
     forall row : AnalyticsService.StatsResponse,
       row ∈ stats ->
       AnalyticsService.TotalClicks row
       = Z.of_nat (length (Mongo.matching (AnalyticsService.ShortCode row)
                             (Mongo.docs (AnalyticsService.collection st)))) /\
       (1 <= AnalyticsService.TotalClicks row)%Z /\
       AnalyticsService.LastClick row
       = option_map ClickEvent.Timestamp
           (Mongo.latest (Mongo.matching (AnalyticsService.ShortCode row)
                            (Mongo.docs (AnalyticsService.collection st))))).
Proof.
  unfold AnalyticsService.allStatsHandler, Mongo.Aggregate.
  destruct (Mongo.next_reply (AnalyticsService.collection st)) as [| reason0].
  2: { split; [intros reason _; reflexivity | discriminate]. }
  split; [discriminate |]. intros _. cbn [fst].
  set (ds := Mongo.docs (AnalyticsService.collection st)).
  eexists. split; [reflexivity |]. split; [| split; [| split]].
  - apply (StronglySorted_fmap _ Mongo.more_clicks); [intros g1 g2 Hle; exact Hle |].
    apply StronglySorted_merge_sort;
      [exact more_clicks_transitive | exact more_clicks_total].
  - rewrite <- list_fmap_compose.
    rewrite (merge_sort_Permutation Mongo.more_clicks (Mongo.group ds)).
    unfold Mongo.group. rewrite <- list_fmap_compose.
    rewrite (list_fmap_ext _ id (remove_dups (ClickEvent.ShortCode <$> ds)))
      by (intros; reflexivity).
    rewrite list_fmap_id. apply NoDup_remove_dups.
  - intros shortCode. rewrite list_elem_of_fmap. split.
    + intros (row & -> & Hrow). apply listing_rows in Hrow as (code & Hin & ->).
      exact Hin.
    + intros Hin. eexists. split; [| apply listing_rows; eauto]. reflexivity.
  - intros row Hrow. apply listing_rows in Hrow as (code & Hin & ->). cbn.
    destruct (matching_of_a_code ds code Hin) as (doc & _ & Hcount).
    split; [reflexivity |]. split; [exact Hcount | reflexivity].
Qed.

Lemma listing_of_all_codes_witness :
  exists stats : list AnalyticsService.StatsResponse,
    fst (AnalyticsService.allStatsHandler
           (SampleAnalytics.world
              [ SampleAnalytics.click "q7Xk2m" 1700000001000000000;
                SampleAnalytics.click "abc123" 1700000000000000000;
                SampleAnalytics.click "abc123" 1700000002000000000 ] [] []))
    = AnalyticsService.respondJSON Http.StatusOK
        (AnalyticsService.AllStats
           {| AnalyticsService.StatsList := stats;
              AnalyticsService.Total := Z.of_nat (length stats) |}) /\
    NoDup (AnalyticsService.ShortCode <$> stats).
Proof.
  destruct (proj2 (listing_of_all_codes
                     (SampleAnalytics.world
                        [ SampleAnalytics.click "q7Xk2m" 1700000001000000000;
                          SampleAnalytics.click "abc123" 1700000000000000000;
                          SampleAnalytics.click "abc123" 1700000002000000000 ] [] []))
              eq_refl) as (stats & Hresp & _ & Hnodup & _).
  exists stats. split; [exact Hresp | exact Hnodup].
Defined.

(** X21. The listing and the count of one code agree: with a database
    that answers, statsHandler asked for the short code of a row of the
    listing answers with that very row. *)
Theorem listing_agrees_with_stats (st : AnalyticsService.World)
    (stats : list AnalyticsService.StatsResponse) (total : Z)
    (row : AnalyticsService.StatsResponse) :
  Mongo.replies (AnalyticsService.collection st) = [] ->
  fst (AnalyticsService.allStatsHandler st)
  = AnalyticsService.respondJSON Http.StatusOK
      (AnalyticsService.AllStats
         {| AnalyticsService.StatsList := stats; AnalyticsService.Total := total |}) ->
  row ∈ stats ->
  fst (AnalyticsService.statsHandler
         [ ("shortCode", AnalyticsService.ShortCode row) ] st)
  = AnalyticsService.respondJSON Http.StatusOK (AnalyticsService.Stats row).
Proof.
  intros Hreplies Hlisting Hrow.
  unfold AnalyticsService.allStatsHandler, Mongo.Aggregate, Mongo.next_reply in Hlisting.
  rewrite Hreplies in Hlisting. cbn [fst] in Hlisting.
  injection Hlisting as Hstats _. subst stats.
  apply listing_rows in Hrow as (code & Hin & ->).
  rewrite (statsHandler_answered _ st Hreplies). reflexivity.
Qed.

Lemma listing_agrees_with_stats_witness :
  fst (AnalyticsService.statsHandler [ ("shortCode", "abc123") ]
         (SampleAnalytics.world
            [ SampleAnalytics.click "q7Xk2m" 1700000001000000000;
              SampleAnalytics.click "abc123" 1700000000000000000;
              SampleAnalytics.click "abc123" 1700000002000000000 ] [] []))
  = AnalyticsService.respondJSON Http.StatusOK
      (AnalyticsService.Stats
         {| AnalyticsService.ShortCode := "abc123";
            AnalyticsService.TotalClicks := 2;
            AnalyticsService.LastClick := Some 1700000002000000000%Z |}).
Proof.
  apply (listing_agrees_with_stats
           (SampleAnalytics.world
              [ SampleAnalytics.click "q7Xk2m" 1700000001000000000;
                SampleAnalytics.click "abc123" 1700000000000000000;
                SampleAnalytics.click "abc123" 1700000002000000000 ] [] [])
           [ {| AnalyticsService.ShortCode := "abc123";
                AnalyticsService.TotalClicks := 2;
                AnalyticsService.LastClick := Some 1700000002000000000%Z |};
             {| AnalyticsService.ShortCode := "q7Xk2m";
                AnalyticsService.TotalClicks := 1;
                AnalyticsService.LastClick := Some 1700000001000000000%Z |} ]
           2
           {| AnalyticsService.ShortCode := "abc123";
              AnalyticsService.TotalClicks := 2;
              AnalyticsService.LastClick := Some 1700000002000000000%Z |}).
  - reflexivity.
  - vm_compute. reflexivity.
  - left.
Defined.

(** * Clicks, one after the other *)






(** * From the click to the count *)






